(** * aiokafka: the consumer orchestration core (aiokafka/consumer.py)

    A shallow embedding of [AIOKafkaConsumer]: the consumer's fields and the
    shared subscription object are an explicit world, every collaborator
    (client, fetcher, group coordinator, event loop) is a record of
    behaviours over an abstract environment, and each coroutine is a
    computation in a small state / exception / event-log monad. *)

From Stdlib Require Import ZArith QArith String Ascii List Lia.
From stdpp Require Import gmap strings list fin_maps.

Local Open Scope string_scope.
Local Open Scope Z_scope.

(* ===================================================================== *)
(** ** Python values the module manipulates                               *)
(* ===================================================================== *)

(** The exceptions that can leave a method of the consumer. A failure
    signalled by a collaborator is carried as [CollaboratorError]. *)
Inductive Exn : Type :=
| AssertionError (msg : string)
| ValueError (msg : string)
| AttributeError
| KeyError
| TypeError
| IllegalStateError
| CollaboratorError (what : string).

(** Result of a collaborator call. *)
Inductive Result (A : Type) : Type :=
| Ok (a : A)
| Err (e : Exn).
Arguments Ok {A} a.
Arguments Err {A} e.

(** Result of a coroutine of the consumer; [OutOfFuel] is the model's
    account of a [while True] loop still running when the bound is reached. *)
Inductive Outcome (A : Type) : Type :=
| Returns (a : A)
| Raises (e : Exn)
| OutOfFuel.
Arguments Returns {A} a.
Arguments Raises {A} e.
Arguments OutOfFuel {A}.

(** An argument of dynamic type: what [seek] may receive as [offset]. *)
Inductive PyVal : Type :=
| PyInt (z : Z)
| PyNone
| PyStr (s : string).

(** [isinstance(v, int)] *)
Definition isinstance_int (v : PyVal) : bool :=
  match v with PyInt _ => true | _ => false end.

(** kafka.common.TopicPartition *)
Record TopicPartition : Type := mkTP { topic : string; partition : Z }.

#[global] Instance TopicPartition_eq_dec : EqDecision TopicPartition.
Proof. solve_decision. Defined.

#[global] Instance TopicPartition_countable : Countable TopicPartition.
Proof.
  apply (inj_countable' (fun tp => (topic tp, partition tp))
                        (fun p => mkTP (fst p) (snd p))).
  intros []. reflexivity.
Defined.

(** kafka.common.OffsetAndMetadata *)
Record OffsetAndMetadata : Type := mkOM { offset : Z; metadata : string }.

(** The record [getone] hands out (topic, partition, offset, key, value). *)
Record ConsumerRecord : Type := mkRecord {
  rec_topic : string;
  rec_partition : Z;
  rec_offset : Z;
  rec_key : string;
  rec_value : string
}.

(** What the consumer passes as [partitions] to the position-resolution
    routine: Python does not type the argument, so a lone partition and a
    set of partitions are different values. *)
Inductive PartitionsArg : Type :=
| OnePartition (tp : TopicPartition)
| PartitionSet (s : gset TopicPartition).

(* ===================================================================== *)
(** ** [str.split('.')], [int(...)] and tuple comparison                   *)
(* ===================================================================== *)

(** [s.split(sep)] for a one-character separator: the pieces between the
    separators, empty pieces kept, so the result is never empty. *)
Fixpoint py_split (sep : ascii) (s : string) : list string :=
  match s with
  | EmptyString => [EmptyString]
  | String c rest =>
      if Ascii.eqb c sep then EmptyString :: py_split sep rest
      else match py_split sep rest with
           | [] => [String c EmptyString]
           | piece :: pieces => String c piece :: pieces
           end
  end.

Definition digit_of (c : ascii) : option Z :=
  let n := Z.of_nat (nat_of_ascii c) in
  if (48 <=? n) && (n <=? 57) then Some (n - 48) else None.

Fixpoint digits_value (acc : Z) (s : string) : option Z :=
  match s with
  | EmptyString => Some acc
  | String c rest =>
      match digit_of c with
      | Some d => digits_value (10 * acc + d) rest
      | None => None
      end
  end.

(** The ASCII characters [int] strips: space, tab, newline, vertical tab,
    form feed and carriage return. *)
Definition is_space (c : ascii) : bool :=
  let n := nat_of_ascii c in
  (Nat.eqb n 32 || (Nat.leb 9 n && Nat.leb n 13))%bool.

Fixpoint lstrip (s : string) : string :=
  match s with
  | EmptyString => EmptyString
  | String c rest => if is_space c then lstrip rest else s
  end.

(** [s.rstrip()]: a piece is dropped when it and all that follows it are
    spaces. *)
Fixpoint rstrip (s : string) : string :=
  match s with
  | EmptyString => EmptyString
  | String c rest =>
      match rstrip rest with
      | EmptyString => if is_space c then EmptyString else String c EmptyString
      | rest' => String c rest'
      end
  end.

(** [int(s)] on ASCII input: surrounding white space is dropped, then an
    optional sign and at least one decimal digit must remain; [None] stands
    for the [ValueError] Python raises on anything else. The digit-group
    underscores of later Python versions are not accepted. *)
Definition py_int (s : string) : option Z :=
  match rstrip (lstrip s) with
  | EmptyString => None
  | String "-" (String c rest) => Z.opp <$> digits_value 0 (String c rest)
  | String "+" (String c rest) => digits_value 0 (String c rest)
  | digits => digits_value 0 digits
  end.

(** [map(int, pieces)] forced by [tuple(...)]: the first failing piece
    raises. *)
Fixpoint map_int (pieces : list string) : option (list Z) :=
  match pieces with
  | [] => Some []
  | p :: rest =>
      match py_int p with
      | Some z => cons z <$> map_int rest
      | None => None
      end
  end.

(** [tuple(map(int, s.split('.')))] *)
Definition parse_api_version (s : string) : option (list Z) :=
  map_int (py_split "."%char s).

(** Python's [<] on tuples of integers: lexicographic, a proper prefix is
    smaller. *)
Fixpoint tuple_lt (a b : list Z) : bool :=
  match a, b with
  | [], [] => false
  | [], _ :: _ => true
  | _ :: _, [] => false
  | x :: a', y :: b' => if x =? y then tuple_lt a' b' else x <? y
  end.

(* ===================================================================== *)
(** ** The subscription object (kafka.consumer.subscription_state)       *)
(* ===================================================================== *)

(** Modelled from the spec: the per-partition state kept by the
    subscription ([TopicPartitionState] of kafka-python is not part of this
    module). [committed] holds what [committed()] returns for an assigned
    partition, which the module treats as an offset: it is compared with
    [0] and handed to [seek]. *)
Module TopicPartitionState.

Record t : Type := mk {
  position : option Z;
  committed : option Z;
  highwater : option Z
}.

(** Modelled from the spec: a freshly assigned partition has nothing
    resolved. *)
Definition fresh : t := mk None None None.

(** Modelled from the spec: [seek(offset)] overwrites the position and
    nothing else. *)
Definition seek (k : Z) (st : t) : t :=
  mk (Some k) (committed st) (highwater st).

End TopicPartitionState.

Abbreviation PartitionState := TopicPartitionState.t.

(** Modelled from the spec: the four mutually exclusive membership modes. *)
Inductive Mode : Type := UNSUBSCRIBED | AUTO_TOPICS | AUTO_PATTERN | USER_ASSIGNED.

(** Modelled from the spec: [SubscriptionState], the object shared by the
    consumer, the fetcher and the group coordinator. *)
Record SubscriptionState : Type := mkSub {
  mode : Mode;
  subscription : list string;
  needs_partition_assignment : bool;
  reset_policy : string;
  assignment : gmap TopicPartition PartitionState
}.

(** The subscription with its [assignment] dict replaced or updated. *)
Definition with_assignment (a : gmap TopicPartition PartitionState)
    (s : SubscriptionState) : SubscriptionState :=
  mkSub (mode s) (subscription s) (needs_partition_assignment s)
        (reset_policy s) a.

(** Modelled from the spec: [SubscriptionState(auto_offset_reset)]. *)
Definition new_subscription (auto_offset_reset : string) : SubscriptionState :=
  mkSub UNSUBSCRIBED [] false auto_offset_reset ∅.

(** Modelled from the spec: [subscribe(topics=...)] fails in manual mode,
    replaces the topic interest and clears the per-partition state. *)
Definition sub_subscribe (topics : list string) (s : SubscriptionState)
  : Result SubscriptionState :=
  match mode s with
  | USER_ASSIGNED => Err IllegalStateError
  | _ => Ok (mkSub AUTO_TOPICS topics true (reset_policy s) ∅)
  end.

(** Modelled from the spec: [unsubscribe()] always succeeds. *)
Definition sub_unsubscribe (s : SubscriptionState) : SubscriptionState :=
  mkSub UNSUBSCRIBED [] false (reset_policy s) ∅.

(** Modelled from the spec: [assign_from_user(partitions)] fails in a group
    mode and replaces the whole map with fresh states. *)
Definition sub_assign_from_user (ps : list TopicPartition) (s : SubscriptionState)
  : Result SubscriptionState :=
  match mode s with
  | AUTO_TOPICS | AUTO_PATTERN => Err IllegalStateError
  | _ => Ok (mkSub USER_ASSIGNED (subscription s) false (reset_policy s)
               (list_to_map ((fun tp => (tp, TopicPartitionState.fresh)) <$> ps)))
  end.

(** Modelled from the spec: [assigned_partitions()], a fresh set. *)
Definition assigned_partitions (s : SubscriptionState) : gset TopicPartition :=
  dom (assignment s).

(** Modelled from the spec: [is_assigned(p)]. *)
Definition is_assigned (s : SubscriptionState) (tp : TopicPartition) : bool :=
  bool_decide (is_Some (assignment s !! tp)).

(** Modelled from the spec: partitions whose position is [None]. *)
Definition missing_fetch_positions (s : SubscriptionState) : gset TopicPartition :=
  dom (filter (fun kv => TopicPartitionState.position (snd kv) = None)
              (assignment s)).

(** Modelled from the spec: [has_all_fetch_positions()]. *)
Definition has_all_fetch_positions (s : SubscriptionState) : bool :=
  bool_decide (map_Forall (fun _ st => is_Some (TopicPartitionState.position st))
                          (assignment s)).

(** Modelled from the spec: the snapshot of every resolved position, as the
    offset to commit. *)
Definition all_consumed_offsets (s : SubscriptionState)
  : gmap TopicPartition OffsetAndMetadata :=
  omap (fun st => (fun k => mkOM k EmptyString) <$> TopicPartitionState.position st)
       (assignment s).

(* ===================================================================== *)
(** ** Collaborators and the world                                        *)
(* ===================================================================== *)

(** Calls the consumer makes on its collaborators, in program order. *)
Inductive Event : Type :=
| ClientBootstrap
| ClientCheckVersion
| ClientForceMetadataUpdate
| ClientSetTopics (ts : list string)
| ClientClose
| FetcherInit
| FetcherUpdateFetchPositions (a : PartitionsArg)
| FetcherNextRecord (ps : list TopicPartition)
| FetcherFetchedRecords (ps : list TopicPartition)
| FetcherClose
| CoordinatorInit
| CoordinatorEnsureActiveGroup
| CoordinatorCommitOffsets (offsets : gmap TopicPartition OffsetAndMetadata)
| CoordinatorRefreshCommittedOffsets
| CoordinatorFetchCommittedOffsets (ps : list TopicPartition)
| CoordinatorClose
| LoopSleep (delay : Q).

(** The arguments of the [Fetcher.update_fetch_positions] calls of a run,
    in order. *)
Definition update_args (evs : list Event) : list PartitionsArg :=
  flat_map (fun ev => match ev with
                      | FetcherUpdateFetchPositions a => [a]
                      | _ => []
                      end) evs.

(** A call on the client: it sees and changes only the environment. *)
Definition ClientOp (E A : Type) : Type := E -> Result A * E.

(** A call on the fetcher or the coordinator, or a suspension: both hold
    the consumer's subscription object, and background tasks run while the
    caller is suspended, so the call may change the subscription too. *)
Definition SharedOp (E A : Type) : Type :=
  SubscriptionState -> E -> Result A * SubscriptionState * E.

(** The interface of the collaborators (section 6 of the specification);
    their behaviour is a parameter of the whole development. *)
Record Collaborators (E : Type) : Type := mkCollaborators {
  client_bootstrap : ClientOp E unit;
  client_check_version : ClientOp E string;
  client_force_metadata_update : ClientOp E unit;
  client_set_topics : list string -> ClientOp E unit;
  client_close : ClientOp E unit;
  cluster_partitions_for_topic : E -> string -> option (list Z);
  fetcher_update_fetch_positions : PartitionsArg -> SharedOp E unit;
  fetcher_next_record : list TopicPartition -> SharedOp E (option ConsumerRecord);
  fetcher_fetched_records :
    list TopicPartition -> SharedOp E (gmap TopicPartition (list ConsumerRecord));
  fetcher_close : SharedOp E unit;
  coordinator_ensure_active_group : SharedOp E unit;
  coordinator_commit_offsets :
    gmap TopicPartition OffsetAndMetadata -> SharedOp E unit;
  coordinator_refresh_committed_offsets : SharedOp E unit;
  coordinator_fetch_committed_offsets :
    list TopicPartition -> SharedOp E (gmap TopicPartition OffsetAndMetadata);
  coordinator_close : SharedOp E unit;
  loop_sleep : Q -> SharedOp E unit;
  loop_time : E -> Q
}.
Arguments client_bootstrap {E} _.
Arguments client_check_version {E} _.
Arguments client_force_metadata_update {E} _.
Arguments client_set_topics {E} _.
Arguments client_close {E} _.
Arguments cluster_partitions_for_topic {E} _.
Arguments fetcher_update_fetch_positions {E} _.
Arguments fetcher_next_record {E} _.
Arguments fetcher_fetched_records {E} _.
Arguments fetcher_close {E} _.
Arguments coordinator_ensure_active_group {E} _.
Arguments coordinator_commit_offsets {E} _.
Arguments coordinator_refresh_committed_offsets {E} _.
Arguments coordinator_fetch_committed_offsets {E} _.
Arguments coordinator_close {E} _.
Arguments loop_sleep {E} _.
Arguments loop_time {E} _.

(** [self._api_version] is the configured string until [start] replaces it
    by a tuple. *)
Inductive ApiVersion : Type :=
| VersionStr (s : string)
| VersionTuple (t : list Z).

(** The objects [start] constructs; their behaviour lives in
    [Collaborators]. *)
Inductive Fetcher : Type := FetcherObj.
Inductive GroupCoordinator : Type := GroupCoordinatorObj.

(** The consumer's fields that the methods below read or write, the shared
    subscription object, and the environment of the collaborators. *)
Record World (E : Type) : Type := mkWorld {
  _api_version : ApiVersion;
  _group_id : option string;
  _consumer_timeout : Q;
  _subscription : SubscriptionState;
  _fetcher : option Fetcher;
  _coordinator : option GroupCoordinator;
  _closed : bool;
  _topics : list string;
  env : E
}.
Arguments mkWorld {E}.
Arguments _api_version {E} _.
Arguments _group_id {E} _.
Arguments _consumer_timeout {E} _.
Arguments _subscription {E} _.
Arguments _fetcher {E} _.
Arguments _coordinator {E} _.
Arguments _closed {E} _.
Arguments _topics {E} _.
Arguments env {E} _.

(** The constructor arguments the module itself uses (the others are only
    forwarded to the collaborators). *)
Record Config : Type := mkConfig {
  cfg_topics : list string;
  cfg_group_id : option string;
  cfg_auto_offset_reset : string;
  cfg_consumer_timeout_ms : Z;
  cfg_api_version : string
}.

Section Consumer.

Context {E : Type} (K : Collaborators E).

Definition set_api_version (v : ApiVersion) (w : World E) : World E :=
  mkWorld v (_group_id w) (_consumer_timeout w) (_subscription w)
          (_fetcher w) (_coordinator w) (_closed w) (_topics w) (env w).

Definition set_subscription (s : SubscriptionState) (w : World E) : World E :=
  mkWorld (_api_version w) (_group_id w) (_consumer_timeout w) s
          (_fetcher w) (_coordinator w) (_closed w) (_topics w) (env w).

Definition set_fetcher (f : option Fetcher) (w : World E) : World E :=
  mkWorld (_api_version w) (_group_id w) (_consumer_timeout w) (_subscription w)
          f (_coordinator w) (_closed w) (_topics w) (env w).

Definition set_coordinator (c : option GroupCoordinator) (w : World E) : World E :=
  mkWorld (_api_version w) (_group_id w) (_consumer_timeout w) (_subscription w)
          (_fetcher w) c (_closed w) (_topics w) (env w).

Definition set_closed (b : bool) (w : World E) : World E :=
  mkWorld (_api_version w) (_group_id w) (_consumer_timeout w) (_subscription w)
          (_fetcher w) (_coordinator w) b (_topics w) (env w).

Definition set_env (e : E) (w : World E) : World E :=
  mkWorld (_api_version w) (_group_id w) (_consumer_timeout w) (_subscription w)
          (_fetcher w) (_coordinator w) (_closed w) (_topics w) e.

(* ===================================================================== *)
(** ** The monad of coroutines                                            *)
(* ===================================================================== *)

(** A coroutine run to completion: its outcome, the world it leaves and
    the collaborator calls it made. *)
Definition M (A : Type) : Type := World E -> Outcome A * World E * list Event.

Definition ret {A} (a : A) : M A := fun w => (Returns a, w, []).

Definition bind {A B} (m : M A) (k : A -> M B) : M B := fun w =>
  match m w with
  | (Returns a, w1, evs1) =>
      match k a w1 with (r, w2, evs2) => (r, w2, (evs1 ++ evs2)%list) end
  | (Raises e, w1, evs1) => (Raises e, w1, evs1)
  | (OutOfFuel, w1, evs1) => (OutOfFuel, w1, evs1)
  end.

Definition raise {A} (e : Exn) : M A := fun w => (Raises e, w, []).

Definition out_of_fuel {A} : M A := fun w => (OutOfFuel, w, []).

(** The three components of a finished run. *)
Definition outcome {A} (x : Outcome A * World E * list Event) : Outcome A :=
  fst (fst x).

Definition world_after {A} (x : Outcome A * World E * list Event) : World E :=
  snd (fst x).

Definition events {A} (x : Outcome A * World E * list Event) : list Event :=
  snd x.

(** Every [Fetcher.update_fetch_positions] call of [m], from whatever
    world it starts, has an argument satisfying [P]. *)
Definition updates_satisfy {A} (P : PartitionsArg -> Prop) (m : M A) : Prop :=
  forall w, Forall P (update_args (events (m w))).

Definition gets {A} (f : World E -> A) : M A := fun w => (Returns (f w), w, []).

Definition modify (f : World E -> World E) : M unit := fun w => (Returns tt, f w, []).

Definition emit (ev : Event) : M unit := fun w => (Returns tt, w, [ev]).

(** [x is not None] *)
Definition is_not_none {A} (x : option A) : bool :=
  match x with Some _ => true | None => false end.

(** [assert cond, msg] *)
Definition py_assert (cond : bool) (msg : string) : M unit :=
  if cond then ret tt else raise (AssertionError msg).

Definition of_result {A} (r : Result A) : Outcome A :=
  match r with Ok a => Returns a | Err e => Raises e end.

(** [self._client.<op>(...)] *)
Definition call_client {A} (ev : Event) (op : ClientOp E A) : M A := fun w =>
  match op (env w) with
  | (r, e1) => (of_result r, set_env e1 w, [ev])
  end.

(** A call through the shared subscription object. *)
Definition call_shared {A} (ev : Event) (op : SharedOp E A) : M A := fun w =>
  match op (_subscription w) (env w) with
  | (r, s1, e1) => (of_result r, set_env e1 (set_subscription s1 w), [ev])
  end.

(** [self._fetcher.<op>(...)]: the attribute lookup fails on [None]. *)
Definition call_fetcher {A} (ev : Event) (op : SharedOp E A) : M A := fun w =>
  match _fetcher w with
  | Some _ => call_shared ev op w
  | None => raise AttributeError w
  end.

(** [self._coordinator.<op>(...)] *)
Definition call_coordinator {A} (ev : Event) (op : SharedOp E A) : M A := fun w =>
  match _coordinator w with
  | Some _ => call_shared ev op w
  | None => raise AttributeError w
  end.

(** [asyncio.sleep(self._consumer_timeout, loop=self._loop)] *)
Definition sleep : M unit := fun w =>
  call_shared (LoopSleep (_consumer_timeout w)) (loop_sleep K (_consumer_timeout w)) w.

(** [self._subscription.assignment[tp]] *)
Definition assignment_at (tp : TopicPartition) : M PartitionState := fun w =>
  match assignment (_subscription w) !! tp with
  | Some st => ret st w
  | None => raise KeyError w
  end.

#[local] Instance M_ret : MRet M := @ret.
#[local] Instance M_bind : MBind M := fun A B k m => bind m k.

(** [for x in xs: body(x)] *)
Fixpoint for_each {A} (xs : list A) (body : A -> M unit) : M unit :=
  match xs with
  | [] => ret tt
  | x :: rest => body x;; for_each rest body
  end.

(* ===================================================================== *)
(** ** AIOKafkaConsumer                                                   *)
(* ===================================================================== *)

(** The fields [__init__] assigns (lines 130-155). *)
Definition initial_world (cfg : Config) (e : E) : World E :=
  mkWorld (VersionStr (cfg_api_version cfg))
          (cfg_group_id cfg)
          (inject_Z (cfg_consumer_timeout_ms cfg) / 1000)%Q
          (new_subscription (cfg_auto_offset_reset cfg))
          None None false (cfg_topics cfg) e.

(** [api_version not in ('auto', '0.9')] *)
Definition unsupported_api_version (v : string) : bool :=
  negb (String.eqb v "auto" || String.eqb v "0.9").

(** [self._subscription.subscribe(topics=topics)] *)
Definition subscription_subscribe (topics : list string) : M unit :=
  s ← gets _subscription;
  match sub_subscribe topics s with
  | Ok s1 => modify (set_subscription s1)
  | Err e => raise e
  end.

(** [self._subscription.assign_from_user(partitions)] *)
Definition subscription_assign_from_user (ps : list TopicPartition) : M unit :=
  s ← gets _subscription;
  match sub_assign_from_user ps s with
  | Ok s1 => modify (set_subscription s1)
  | Err e => raise e
  end.

(** [AIOKafkaConsumer.__init__]: when it raises there is no consumer, only
    the environment and the calls made so far remain. *)
Definition init (cfg : Config) (e : E) : Outcome (World E) * E * list Event :=
  if unsupported_api_version (cfg_api_version cfg)
  then (Raises (ValueError "Unsupported Kafka API version"), e, [])
  else
    let body : M unit :=
      match cfg_topics cfg with
      | [] => ret tt
      | topics =>
          call_client (ClientSetTopics topics) (client_set_topics K topics);;
          subscription_subscribe topics
      end in
    match body (initial_world cfg e) with
    | (Returns _, w, evs) => (Returns w, env w, evs)
    | (Raises x, w, evs) => (Raises x, env w, evs)
    | (OutOfFuel, w, evs) => (OutOfFuel, env w, evs)
    end.

(** [self._api_version == 'auto'] *)
Definition is_auto (v : ApiVersion) : bool :=
  match v with
  | VersionStr s => String.eqb s "auto"
  | VersionTuple _ => false
  end.

(** The loop of [start] that enumerates the partitions of every topic;
    iterating over the [None] of an unknown topic is a [TypeError]. *)
Fixpoint collect_partitions (e : E) (topics : list string)
  : Result (list TopicPartition) :=
  match topics with
  | [] => Ok []
  | t :: rest =>
      match cluster_partitions_for_topic K e t with
      | None => Err TypeError
      | Some p_ids =>
          match collect_partitions e rest with
          | Ok l => Ok ((mkTP t <$> p_ids) ++ l)%list
          | Err x => Err x
          end
      end
  end.

(** [AIOKafkaConsumer.start] *)
Definition start : M unit :=
  call_client ClientBootstrap (client_bootstrap K);;
  v ← gets _api_version;
  (if is_auto v
   then s ← call_client ClientCheckVersion (client_check_version K);
        modify (set_api_version (VersionStr s))
   else ret tt);;
  v ← gets _api_version;
  t ← match v with
      | VersionStr s =>
          match parse_api_version s with
          | Some t => ret t
          | None => raise (ValueError "invalid literal for int()")
          end
      | VersionTuple _ => raise AttributeError
      end;
  modify (set_api_version (VersionTuple t));;
  if tuple_lt t [0; 9]
  then raise (ValueError "Unsupported Kafka version")
  else
    emit FetcherInit;;
    modify (set_fetcher (Some FetcherObj));;
    emit CoordinatorInit;;
    modify (set_coordinator (Some GroupCoordinatorObj));;
    g ← gets _group_id;
    match g with
    | Some _ =>
        call_coordinator CoordinatorEnsureActiveGroup
                         (coordinator_ensure_active_group K)
    | None =>
        s ← gets _subscription;
        if needs_partition_assignment s
        then
          call_client ClientForceMetadataUpdate (client_force_metadata_update K);;
          topics ← gets _topics;
          e ← gets env;
          match collect_partitions e topics with
          | Ok partitions =>
              modify (fun w => set_subscription (sub_unsubscribe (_subscription w)) w);;
              subscription_assign_from_user partitions
          | Err x => raise x
          end
        else ret tt
    end.

(** [AIOKafkaConsumer.stop] *)
Definition stop : M unit :=
  closed ← gets _closed;
  if (closed : bool) then ret tt
  else
    modify (set_closed true);;
    c ← gets _coordinator;
    match c with
    | Some _ => call_coordinator CoordinatorClose (coordinator_close K)
    | None => ret tt
    end;;
    f ← gets _fetcher;
    match f with
    | Some _ => call_fetcher FetcherClose (fetcher_close K)
    | None => ret tt
    end;;
    call_client ClientClose (client_close K).

(** [AIOKafkaConsumer.commit]; the [isinstance] checks on caller-supplied
    offsets hold by typing. *)
Definition commit (offsets : option (gmap TopicPartition OffsetAndMetadata))
  : M unit :=
  g ← gets _group_id;
  py_assert (is_not_none g) "Requires group_id";;
  offsets ← match offsets with
            | None => gets (fun w => all_consumed_offsets (_subscription w))
            | Some o => ret o
            end;
  call_coordinator (CoordinatorCommitOffsets offsets)
                   (coordinator_commit_offsets K offsets).

(** [AIOKafkaConsumer.committed] *)
Definition committed (partition : TopicPartition) : M (option Z) :=
  g ← gets _group_id;
  py_assert (is_not_none g) "Requires group_id";;
  s ← gets _subscription;
  if is_assigned s partition
  then
    st ← assignment_at partition;
    match TopicPartitionState.committed st with
    | None =>
        call_coordinator CoordinatorRefreshCommittedOffsets
                         (coordinator_refresh_committed_offsets K);;
        st ← assignment_at partition;
        ret (TopicPartitionState.committed st)
    | Some c => ret (Some c)
    end
  else
    commit_map ← call_coordinator (CoordinatorFetchCommittedOffsets [partition])
                    (coordinator_fetch_committed_offsets K [partition]);
    match commit_map !! partition with
    | Some om => ret (Some (offset om))
    | None => ret None
    end.

(** [AIOKafkaConsumer._update_fetch_positions] *)
Definition _update_fetch_positions (partitions : PartitionsArg) : M unit :=
  g ← gets _group_id;
  match g with
  | Some _ => call_coordinator CoordinatorRefreshCommittedOffsets
                               (coordinator_refresh_committed_offsets K)
  | None => ret tt
  end;;
  call_fetcher (FetcherUpdateFetchPositions partitions)
               (fetcher_update_fetch_positions K partitions).

(** [AIOKafkaConsumer.position] *)
Definition position (partition : TopicPartition) : M (option Z) :=
  s ← gets _subscription;
  py_assert (is_assigned s partition) "Partition is not assigned";;
  st ← assignment_at partition;
  match TopicPartitionState.position st with
  | None =>
      _update_fetch_positions (OnePartition partition);;
      st ← assignment_at partition;
      ret (TopicPartitionState.position st)
  | Some k => ret (Some k)
  end.

(** [offset >= 0], evaluated only after [isinstance(offset, int)]. *)
Definition py_ge0 (v : PyVal) : bool :=
  match v with PyInt k => 0 <=? k | _ => false end.

(** [AIOKafkaConsumer.seek] *)
Definition seek (partition : TopicPartition) (offset : PyVal) : M unit :=
  py_assert (isinstance_int offset && py_ge0 offset) "Offset must be >= 0";;
  s ← gets _subscription;
  py_assert (bool_decide (partition ∈ assigned_partitions s))
            "Unassigned partition";;
  st ← assignment_at partition;
  match offset with
  | PyInt k =>
      modify (fun w =>
        let s := _subscription w in
        set_subscription
          (with_assignment
             (<[partition := TopicPartitionState.seek k st]> (assignment s)) s)
          w)
  | _ => raise TypeError
  end.

(** One iteration of the second loop of [seek_to_committed]
    (lines 429-432): [if offset and offset > 0] holds for an integer that
    is neither [None] nor [0] and is positive. *)
Definition seek_to_committed_step (tp : TopicPartition) : M unit :=
  offset ← committed tp;
  match offset with
  | Some k => if 0 <? k then seek tp (PyInt k) else ret tt
  | None => ret tt
  end.

(** [AIOKafkaConsumer.seek_to_committed] *)
Definition seek_to_committed (partitions : list TopicPartition) : M unit :=
  s ← gets _subscription;
  partitions ←
    match partitions with
    | [] =>
        let assigned := assigned_partitions s in
        py_assert (negb (bool_decide (assigned = ∅)))
                  "No partitions are currently assigned";;
        ret (elements assigned)
    | _ =>
        for_each partitions (fun p =>
          s ← gets _subscription;
          py_assert (bool_decide (p ∈ assigned_partitions s))
                    "Unassigned partition");;
        ret partitions
    end;
  for_each partitions seek_to_committed_step.

(** The polling loops: each [while] loop takes a bound on the number of its
    iterations. *)

(** [while not self._subscription.assigned_partitions(): sleep] *)
Fixpoint wait_for_assignment (fuel : nat) : M unit :=
  match fuel with
  | O => out_of_fuel
  | S fuel =>
      s ← gets _subscription;
      if bool_decide (assigned_partitions s = ∅)
      then sleep;; wait_for_assignment fuel
      else ret tt
  end.

(** The [while True] loop of [getone]. *)
Fixpoint getone_loop (fuel : nat) (partitions : list TopicPartition)
  : M ConsumerRecord :=
  match fuel with
  | O => out_of_fuel
  | S fuel' =>
      wait_for_assignment fuel;;
      s ← gets _subscription;
      (if has_all_fetch_positions s then ret tt
       else _update_fetch_positions (PartitionSet (missing_fetch_positions s)));;
      msg ← call_fetcher (FetcherNextRecord partitions)
                         (fetcher_next_record K partitions);
      match msg with
      | None => sleep;; getone_loop fuel' partitions
      | Some m => ret m
      end
  end.

(** [AIOKafkaConsumer.getone]; the [isinstance] check holds by typing. *)
Definition getone (fuel : nat) (partitions : list TopicPartition)
  : M ConsumerRecord :=
  getone_loop fuel partitions.

(** [self._loop.time()] *)
Definition time : M Q := gets (fun w => loop_time K (env w)).

(** The [while True] loop of [getmany]. The clock and the deadline test are
    taken in exact rationals; the rounding of the source's floats is not
    modelled, so the number of iterations before a positive deadline may
    differ from the source's by one. At a timeout of [0] the test
    [elapsed >= 0] has the same answer in both. *)
Fixpoint getmany_loop (fuel : nat) (partitions : list TopicPartition)
    (timeout start_time : Q) : M (gmap TopicPartition (list ConsumerRecord)) :=
  match fuel with
  | O => out_of_fuel
  | S fuel =>
      records ← call_fetcher (FetcherFetchedRecords partitions)
                             (fetcher_fetched_records K partitions);
      if negb (bool_decide (records = ∅))
      then ret records
      else
        sleep;;
        now ← time;
        if Qle_bool timeout (now - start_time)
        then ret ∅
        else getmany_loop fuel partitions timeout start_time
  end.

(** [AIOKafkaConsumer.getmany]. Times are rationals; [timeout_ms / 1000.]
    is the exact quotient. *)
Definition getmany (fuel : nat) (partitions : list TopicPartition)
    (timeout_ms : Z) : M (gmap TopicPartition (list ConsumerRecord)) :=
  s ← gets _subscription;
  (if has_all_fetch_positions s then ret tt
   else _update_fetch_positions (PartitionSet (missing_fetch_positions s)));;
  let timeout := (inject_Z timeout_ms / 1000)%Q in
  start_time ← time;
  getmany_loop fuel partitions timeout start_time.

End Consumer.

(* ===================================================================== *)
(** ** AIOKafkaConsumer: the remaining synchronous methods                *)
(* ===================================================================== *)

Section ConsumerQueries.

Context {E : Type} (K : Collaborators E).

#[local] Existing Instance M_ret.
#[local] Existing Instance M_bind.

(** [AIOKafkaConsumer.assign] *)
Definition assign (partitions : list TopicPartition) : @M E unit :=
  subscription_assign_from_user partitions;;
  call_client (ClientSetTopics (topic <$> partitions))
              (client_set_topics K (topic <$> partitions)).

(** [AIOKafkaConsumer.highwater] *)
Definition highwater (partition : TopicPartition) : @M E (option Z) :=
  s ← gets _subscription;
  py_assert (is_assigned s partition) "Partition is not assigned";;
  st ← assignment_at partition;
  ret (TopicPartitionState.highwater st).

(** [AIOKafkaConsumer.unsubscribe] *)
Definition unsubscribe : @M E unit :=
  modify (fun w => set_subscription (sub_unsubscribe (_subscription w)) w);;
  call_client (ClientSetTopics []) (client_set_topics K []).

(** [m] neither reads nor writes [_closed]: run from a world with the flag
    overwritten, it does what it does otherwise and leaves the flag as
    overwritten. *)
Definition closed_blind {A} (m : @M E A) : Prop :=
  forall (b : bool) (w : World E),
    m (set_closed b w) =
    match m w with (r, w1, evs) => (r, set_closed b w1, evs) end.

End ConsumerQueries.

(** The [refresh_committed_offsets] calls a run of [seek_to_committed] over
    [ps] makes when no refresh changes the cache: one for every partition
    of [ps], in order, whose committed offset is not cached in [a]. *)
Definition refreshes_needed (a : gmap TopicPartition PartitionState)
    (ps : list TopicPartition) : list Event :=
  flat_map (fun p =>
    match a !! p with
    | Some st =>
        match TopicPartitionState.committed st with
        | None => [CoordinatorRefreshCommittedOffsets]
        | Some _ => []
        end
    | None => []
    end) ps.

(** What one step of [seek_to_committed] makes of a partition state whose
    committed offset is cached: the position moves to a positive committed
    offset and is kept otherwise. *)
Definition resume_from_committed (st : PartitionState) : PartitionState :=
  match TopicPartitionState.committed st with
  | Some k => if 0 <? k then TopicPartitionState.seek k st else st
  | None => st
  end.

(* ===================================================================== *)
(** ** A scripted cluster                                                 *)
(* ===================================================================== *)

(** A small deterministic environment on which the model runs: a clock, the
    version the brokers report, the offsets committed on the broker side,
    the earliest offset of every partition, the records already buffered,
    and whether closing the group coordinator fails. *)
Record Cluster : Type := mkCluster {
  clock : Q;
  broker_version : string;
  remote_commits : gmap TopicPartition OffsetAndMetadata;
  earliest_offset : Z;
  buffered : gmap TopicPartition (list ConsumerRecord);
  coordinator_close_fails : bool
}.

Definition with_clock (t : Q) (c : Cluster) : Cluster :=
  mkCluster t (broker_version c) (remote_commits c) (earliest_offset c)
            (buffered c) (coordinator_close_fails c).

Definition with_commits (m : gmap TopicPartition OffsetAndMetadata) (c : Cluster)
  : Cluster :=
  mkCluster (clock c) (broker_version c) m (earliest_offset c)
            (buffered c) (coordinator_close_fails c).

(** The coordinator copies the committed offsets of the assigned
    partitions into the subscription. *)
Definition cluster_refresh (s : SubscriptionState) (c : Cluster)
  : SubscriptionState :=
  with_assignment
    (map_imap (fun tp st =>
       Some (TopicPartitionState.mk (TopicPartitionState.position st)
               (match remote_commits c !! tp with
                | Some om => Some (offset om)
                | None => TopicPartitionState.committed st
                end)
               (TopicPartitionState.highwater st)))
       (assignment s)) s.

Definition resolves (a : PartitionsArg) (tp : TopicPartition) : bool :=
  match a with
  | OnePartition p => bool_decide (p = tp)
  | PartitionSet ps => bool_decide (tp ∈ ps)
  end.

(** The fetcher gives every requested partition without a position its
    committed offset, or else the earliest offset. *)
Definition cluster_resolve (a : PartitionsArg) (s : SubscriptionState)
    (c : Cluster) : SubscriptionState :=
  with_assignment
    (map_imap (fun tp st =>
       Some (match TopicPartitionState.position st with
             | None =>
                 if resolves a tp
                 then TopicPartitionState.seek
                        (default (earliest_offset c)
                                 (TopicPartitionState.committed st)) st
                 else st
             | Some _ => st
             end))
       (assignment s)) s.

Definition requested {A} (ps : list TopicPartition) (m : gmap TopicPartition A)
  : gmap TopicPartition A :=
  match ps with
  | [] => m
  | _ => filter (fun kv => fst kv ∈ ps) m
  end.

Definition scripted : Collaborators Cluster := {|
  client_bootstrap := fun c => (Ok tt, c);
  client_check_version := fun c => (Ok (broker_version c), c);
  client_force_metadata_update := fun c => (Ok tt, c);
  client_set_topics := fun _ c => (Ok tt, c);
  client_close := fun c => (Ok tt, c);
  cluster_partitions_for_topic := fun _ _ => Some [0];
  fetcher_update_fetch_positions := fun a s c => (Ok tt, cluster_resolve a s c, c);
  fetcher_next_record := fun _ s c => (Ok None, s, c);
  fetcher_fetched_records := fun ps s c => (Ok (requested ps (buffered c)), s, c);
  fetcher_close := fun s c => (Ok tt, s, c);
  coordinator_ensure_active_group := fun s c => (Ok tt, s, c);
  coordinator_commit_offsets := fun offs s c =>
    (Ok tt, s, with_commits (offs ∪ remote_commits c) c);
  coordinator_refresh_committed_offsets := fun s c =>
    (Ok tt, cluster_refresh s c, c);
  coordinator_fetch_committed_offsets := fun ps s c =>
    (Ok (requested ps (remote_commits c)), s, c);
  coordinator_close := fun s c =>
    (if coordinator_close_fails c
     then Err (CollaboratorError "GroupCoordinator.close")
     else Ok tt, s, c);
  loop_sleep := fun d s c => (Ok tt, s, with_clock (clock c + d)%Q c);
  loop_time := clock
|}.

Definition tp0 : TopicPartition := mkTP "T" 0.
Definition tp1 : TopicPartition := mkTP "T" 1.

Definition quiet_cluster : Cluster := mkCluster 0%Q "0.9" ∅ 42 ∅ false.

Definition old_cluster : Cluster := mkCluster 0%Q "0.8.2" ∅ 42 ∅ false.

Definition failing_cluster : Cluster := mkCluster 0%Q "0.9" ∅ 42 ∅ true.

(** A started consumer of group ["g"] with one assigned partition. *)
Definition started_world (c : Cluster) (st : PartitionState) : World Cluster :=
  mkWorld (VersionTuple [0; 9]) (Some "g") (1 # 10)%Q
          (mkSub USER_ASSIGNED [] false "earliest" {[ tp0 := st ]})
          (Some FetcherObj) (Some GroupCoordinatorObj) false [] c.

(** The same consumer without a group id. *)
Definition groupless_world (c : Cluster) (st : PartitionState) : World Cluster :=
  mkWorld (VersionTuple [0; 9]) None (1 # 10)%Q
          (mkSub USER_ASSIGNED [] false "earliest" {[ tp0 := st ]})
          (Some FetcherObj) (Some GroupCoordinatorObj) false [] c.

(** A started consumer with nothing assigned. *)
Definition unassigned_world (c : Cluster) : World Cluster :=
  mkWorld (VersionTuple [0; 9]) (Some "g") (1 # 10)%Q
          (mkSub AUTO_TOPICS ["T"] true "earliest" ∅)
          (Some FetcherObj) (Some GroupCoordinatorObj) false ["T"] c.

Definition unresolved : PartitionState := TopicPartitionState.fresh.
Definition resolved : PartitionState := TopicPartitionState.mk (Some 5) None None.
Definition committed_at (k : Z) : PartitionState :=
  TopicPartitionState.mk (Some 3) (Some k) None.

Definition auto_config : Config := mkConfig [] None "latest" 100 "auto".
Definition bad_config : Config := mkConfig [] None "latest" 100 "0.8".

(** The scripted collaborators with another fetcher. *)
Definition with_fetcher
    (update : PartitionsArg -> SharedOp Cluster unit)
    (next : list TopicPartition -> SharedOp Cluster (option ConsumerRecord))
    (K : Collaborators Cluster) : Collaborators Cluster :=
  mkCollaborators Cluster
    (client_bootstrap K) (client_check_version K)
    (client_force_metadata_update K) (client_set_topics K) (client_close K)
    (cluster_partitions_for_topic K)
    update next (fetcher_fetched_records K) (fetcher_close K)
    (coordinator_ensure_active_group K) (coordinator_commit_offsets K)
    (coordinator_refresh_committed_offsets K)
    (coordinator_fetch_committed_offsets K) (coordinator_close K)
    (loop_sleep K) (loop_time K).

(** A group coordinator that finds nothing committed: a refresh leaves the
    cache as it is. *)
Definition nothing_committed : Collaborators Cluster :=
  mkCollaborators Cluster
    (client_bootstrap scripted) (client_check_version scripted)
    (client_force_metadata_update scripted) (client_set_topics scripted)
    (client_close scripted) (cluster_partitions_for_topic scripted)
    (fetcher_update_fetch_positions scripted) (fetcher_next_record scripted)
    (fetcher_fetched_records scripted) (fetcher_close scripted)
    (coordinator_ensure_active_group scripted)
    (coordinator_commit_offsets scripted)
    (fun s c => (Ok tt, s, c))
    (coordinator_fetch_committed_offsets scripted) (coordinator_close scripted)
    (loop_sleep scripted) (loop_time scripted).

Definition record0 : ConsumerRecord := mkRecord "T" 0 5 "k" "v".

(** A fetcher that always has a record at hand. *)
Definition serving : Collaborators Cluster :=
  with_fetcher (fetcher_update_fetch_positions scripted)
               (fun _ s c => (Ok (Some record0), s, c)) scripted.

(** A fetcher that cannot resolve any position. *)
Definition unresolvable : Collaborators Cluster :=
  with_fetcher (fun _ s c => (Err (CollaboratorError "NoOffsetForPartition"), s, c))
               (fetcher_next_record scripted) scripted.

(** A cluster in which the partitions are taken away while the fetcher
    resolves positions. *)
Definition rebalancing : Collaborators Cluster :=
  with_fetcher (fun _ s c => (Ok tt, with_assignment ∅ s, c))
               (fetcher_next_record scripted) scripted.

Definition busy_cluster : Cluster :=
  mkCluster 0%Q "0.9" ∅ 42 {[ tp0 := [record0] ]} false.

(** A started consumer of group ["g"] with two assigned partitions. *)
Definition two_partition_world : World Cluster :=
  mkWorld (VersionTuple [0; 9]) (Some "g") (1 # 10)%Q
          (mkSub USER_ASSIGNED [] false "earliest"
                 {[ tp0 := unresolved; tp1 := committed_at 5 ]})
          (Some FetcherObj) (Some GroupCoordinatorObj) false [] quiet_cluster.

Definition group_config : Config := mkConfig [] (Some "g") "latest" 100 "auto".
Definition topic_config : Config := mkConfig ["T"] None "latest" 100 "auto".

(** The consumer [__init__] builds from [topic_config]. *)
Definition topic_world : World Cluster :=
  mkWorld (VersionStr "auto") None (inject_Z 100 / 1000)%Q
          (mkSub AUTO_TOPICS ["T"] true "latest" ∅)
          None None false ["T"] quiet_cluster.

(* ===================================================================== *)
(** ** Properties                                                         *)
(* ===================================================================== *)

Create HintDb consumer discriminated.

#[global] Hint Unfold mbind M_bind bind ret raise gets modify emit py_assert
  call_client call_shared call_fetcher call_coordinator assignment_at sleep time
  : consumer.

(** Unfold the monad down to the collaborator calls. *)
Ltac run := autounfold with consumer; cbn.

(** Case analysis on an innermost [match] of the goal. *)
Ltac destr :=
  match goal with
  | |- context [match ?x with _ => _ end] =>
      lazymatch x with
      | context [match _ with _ => _ end] => fail
      | _ => destruct x eqn:?
      end
  end.

(** Run a coroutine symbolically, splitting on every test it makes. *)
Ltac use_hyps :=
  repeat match goal with
         | H : ?x = _ |- context [?x] => progress rewrite H
         end.

Ltac run_all :=
  run; repeat (first [progress use_hyps | destr]; simplify_eq; cbn in * ).

Local Open Scope list_scope.

Example py_split_082 : py_split "."%char "0.8.2" = ["0"; "8"; "2"].
Proof. reflexivity. Qed.

Example parse_082 : parse_api_version "0.8.2" = Some [0; 8; 2].
Proof. reflexivity. Qed.

Example parse_bad : parse_api_version "0.9." = None.
Proof. reflexivity. Qed.

Example parse_spaces : parse_api_version " 0 .10" = Some [0; 10].
Proof. reflexivity. Qed.

Example parse_sign : parse_api_version "0.-" = None.
Proof. reflexivity. Qed.

Example lt_082 : tuple_lt [0; 8; 2] [0; 9] = true.
Proof. reflexivity. Qed.

Example lt_09 : tuple_lt [0; 9] [0; 9] = false.
Proof. reflexivity. Qed.

Section Properties.

Context {E : Type} (K : Collaborators E).

Lemma stop_when_closed (w : World E) :
  _closed w = true -> stop K w = (Returns tt, w, []).
Proof.
  intros Hc. unfold stop. run. rewrite Hc. reflexivity.
Qed.

Lemma stop_marks_closed (w : World E) :
  _closed (world_after (stop K w)) = true.
Proof.
  unfold world_after, stop. run_all; done.
Qed.

(** C9. [stop] is idempotent: whatever the first call did, it leaves the
    consumer closed, and a call on a closed consumer returns at once, makes
    no collaborator call and leaves the world as it found it. *)
Theorem stop_idempotent (w : World E) :
  let w1 := world_after (stop K w) in
  _closed w1 = true /\ stop K w1 = (Returns tt, w1, []).
Proof.
  cbv zeta. split.
  - apply stop_marks_closed.
  - apply stop_when_closed, stop_marks_closed.
Qed.

(** C1 (as amended). On a started consumer that is not yet closed, [stop]
    closes the group coordinator, then the fetcher, then the client, in
    that order, as long as each close returns; the first close that raises
    ends the sequence, its exception leaves [stop], and the closes after it
    are not attempted. *)
Theorem stop_closes_in_order_until_failure
    (w : World E) (c : GroupCoordinator) (f : Fetcher) :
  _closed w = false -> _coordinator w = Some c -> _fetcher w = Some f ->
  match coordinator_close K (_subscription w) (env w) with
  | (Err x, _, _) =>
      outcome (stop K w) = Raises x /\ events (stop K w) = [CoordinatorClose]
  | (Ok _, s1, e1) =>
      match fetcher_close K s1 e1 with
      | (Err x, _, _) =>
          outcome (stop K w) = Raises x /\
          events (stop K w) = [CoordinatorClose; FetcherClose]
      | (Ok _, _, e2) =>
          outcome (stop K w) = of_result (fst (client_close K e2)) /\
          events (stop K w) = [CoordinatorClose; FetcherClose; ClientClose]
      end
  end.
Proof.
  intros Hc Hco Hf. unfold outcome, events, stop.
  run_all; split; reflexivity.
Qed.

(** C5. Without a group id [commit] fails its assertion, calls nobody and
    leaves the world as it was. With a group id and no explicit offsets it
    makes exactly one call, [commit_offsets], whose argument is
    [all_consumed_offsets()] of the subscription as it stands on entry. *)
Theorem commit_requires_group_and_snapshots (w : World E) :
  (_group_id w = None ->
   forall offsets,
     commit K offsets w = (Raises (AssertionError "Requires group_id"), w, []))
  /\
  (forall g c, _group_id w = Some g -> _coordinator w = Some c ->
     let snapshot := all_consumed_offsets (_subscription w) in
     events (commit K None w) = [CoordinatorCommitOffsets snapshot] /\
     commit K None w =
       call_shared (CoordinatorCommitOffsets snapshot)
                   (coordinator_commit_offsets K snapshot) w).
Proof.
  split.
  - intros Hg offsets. unfold commit. run. rewrite Hg. reflexivity.
  - intros g c Hg Hco. cbv zeta. unfold events, commit.
    run_all; split; reflexivity.
Qed.

(** C6. [seek(p, v)] fails an assertion, with the world untouched, exactly
    when [v] is not an integer [k >= 0] or [p] is not assigned; otherwise it
    returns with the position of [p] equal to [k], nothing else changed,
    and in both cases it calls no collaborator. *)
Theorem seek_spec (p : TopicPartition) (v : PyVal) (w : World E) :
  let acceptable :=
    (exists k, v = PyInt k /\ 0 <= k) /\
    is_Some (assignment (_subscription w) !! p) in
  events (seek p v w) = [] /\
  (~ acceptable ->
   exists msg, seek p v w = (Raises (AssertionError msg), w, [])) /\
  (acceptable ->
   exists k st,
     v = PyInt k /\ assignment (_subscription w) !! p = Some st /\
     outcome (seek p v w) = Returns tt /\
     world_after (seek p v w) =
       set_subscription
         (with_assignment
            (<[p := TopicPartitionState.seek k st]> (assignment (_subscription w)))
            (_subscription w)) w /\
     TopicPartitionState.position <$>
       assignment (_subscription (world_after (seek p v w))) !! p = Some (Some k) /\
     (forall q, q <> p ->
        assignment (_subscription (world_after (seek p v w))) !! q =
        assignment (_subscription w) !! q)).
Proof.
  cbv zeta. unfold events, outcome, world_after, seek.
  destruct v as [k| |str]; cbn.
  2,3: run; split; [reflexivity|]; split;
       [intros _; eexists; reflexivity | intros [(k & Hk & _) _]; discriminate].
  destruct (Z.leb_spec 0 k) as [Hk|Hk]; run.
  - destruct (bool_decide_reflect (p ∈ assigned_partitions (_subscription w)))
      as [Hin|Hin]; cbn.
    + unfold assigned_partitions in Hin.
      apply elem_of_dom in Hin as [st Hst]. rewrite Hst. cbn.
      split; [reflexivity|]. split.
      * intros Hn. exfalso. apply Hn. split; [exists k; auto | eauto].
      * intros _. exists k, st. repeat split; try reflexivity; try assumption.
        -- rewrite lookup_insert_eq. reflexivity.
        -- intros q Hq. rewrite lookup_insert_ne by congruence. reflexivity.
    + split; [reflexivity|]. split.
      * intros _. eexists. reflexivity.
      * intros [_ Hs]. exfalso. apply Hin. unfold assigned_partitions.
        apply elem_of_dom. exact Hs.
  - split; [reflexivity|]. split.
    + intros _. eexists. reflexivity.
    + intros [(k' & Hk' & Hge) _]. injection Hk' as <-. lia.
Qed.

(** C3. One run of the position-resolution routine on a started consumer:
    with a group id it calls [refresh_committed_offsets] exactly once, and
    [Fetcher.update_fetch_positions] follows that call (it is reached when
    the refresh returns); without a group id the fetcher call is the only
    call made. *)
Theorem update_fetch_positions_calls
    (partitions : PartitionsArg) (w : World E) (f : Fetcher) :
  _fetcher w = Some f ->
  (forall g, _group_id w = Some g -> _coordinator w <> None) ->
  let run := _update_fetch_positions K partitions w in
  match _group_id w with
  | Some _ =>
      match coordinator_refresh_committed_offsets K (_subscription w) (env w) with
      | (Ok _, _, _) =>
          events run = [CoordinatorRefreshCommittedOffsets;
                        FetcherUpdateFetchPositions partitions]
      | (Err x, _, _) =>
          events run = [CoordinatorRefreshCommittedOffsets] /\
          outcome run = Raises x
      end
  | None => events run = [FetcherUpdateFetchPositions partitions]
  end.
Proof.
  intros Hf Hco. cbv zeta. unfold events, outcome, _update_fetch_positions.
  destruct (_group_id w) as [g|] eqn:Hg.
  - specialize (Hco g eq_refl).
    destruct (_coordinator w) as [c|] eqn:Hc; [|congruence].
    run_all; try split; reflexivity.
  - run_all; reflexivity.
Qed.

(** C8. With a group id on a started consumer: for an assigned partition
    whose cached committed offset is unknown, [committed] makes exactly one
    call, [refresh_committed_offsets], and returns [None] when the
    partition still has no committed offset afterwards; for a partition
    that is not assigned it makes exactly one call,
    [fetch_committed_offsets([p])], and returns [None] when the answer does
    not mention the partition. *)
Theorem committed_single_lookup
    (p : TopicPartition) (w : World E) (g : string) (c : GroupCoordinator) :
  _group_id w = Some g -> _coordinator w = Some c ->
  (forall st,
     assignment (_subscription w) !! p = Some st ->
     TopicPartitionState.committed st = None ->
     events (committed K p w) = [CoordinatorRefreshCommittedOffsets] /\
     (forall s1 e1 st1,
        coordinator_refresh_committed_offsets K (_subscription w) (env w)
          = (Ok tt, s1, e1) ->
        assignment s1 !! p = Some st1 ->
        TopicPartitionState.committed st1 = None ->
        outcome (committed K p w) = Returns None))
  /\
  (assignment (_subscription w) !! p = None ->
   events (committed K p w) = [CoordinatorFetchCommittedOffsets [p]] /\
   (forall m s1 e1,
      coordinator_fetch_committed_offsets K [p] (_subscription w) (env w)
        = (Ok m, s1, e1) ->
      m !! p = None ->
      outcome (committed K p w) = Returns None)).
Proof.
  intros Hg Hco. split.
  - intros st Hst Hnone.
    assert (Ha : is_assigned (_subscription w) p = true).
    { unfold is_assigned. apply bool_decide_eq_true. eauto. }
    split.
    + unfold events, committed. run. rewrite Hg. cbn. rewrite Ha, Hst. cbn.
      rewrite Hnone. cbn. rewrite Hco. cbn.
      destruct (coordinator_refresh_committed_offsets K _ _) as [[r s1] e1].
      destruct r; cbn; [|reflexivity].
      destruct (assignment s1 !! p); reflexivity.
    + intros s1 e1 st1 Hcall Hst1 Hnone1.
      unfold outcome, committed. run. rewrite Hg. cbn. rewrite Ha, Hst. cbn.
      rewrite Hnone. cbn. rewrite Hco. cbn. rewrite Hcall. cbn.
      rewrite Hst1. cbn. rewrite Hnone1. reflexivity.
  - intros Hst.
    assert (Ha : is_assigned (_subscription w) p = false).
    { unfold is_assigned. apply bool_decide_eq_false. rewrite Hst.
      intros [? ?]; discriminate. }
    split.
    + unfold events, committed. run. rewrite Hg. cbn. rewrite Ha. cbn.
      rewrite Hco. cbn.
      destruct (coordinator_fetch_committed_offsets K _ _ _) as [[r s1] e1].
      destruct r as [m|]; cbn; [|reflexivity].
      destruct (m !! p); reflexivity.
    + intros m s1 e1 Hcall Hm.
      unfold outcome, committed. run. rewrite Hg. cbn. rewrite Ha. cbn.
      rewrite Hco. cbn. rewrite Hcall. cbn. rewrite Hm. reflexivity.
Qed.

Lemma zero_timeout_elapsed (t0 t1 : Q) :
  (t0 <= t1)%Q -> Qle_bool (inject_Z 0 / 1000) (t1 - t0) = true.
Proof.
  intros H. apply Qle_bool_iff. apply Qle_minus_iff in H.
  unfold Qminus. eapply Qle_trans; [|exact H].
  unfold Qle. cbn. lia.
Qed.

(** C2. [getmany(timeout_ms=0)] with every position resolved and nothing
    buffered: if the buffer query returns the empty dict, the sleep that
    follows returns, and the loop clock has not gone backwards meanwhile,
    the call returns the empty dict after exactly one buffer query and one
    sleep of the poll interval, for every bound of at least one iteration. *)
Theorem getmany_zero_timeout
    (fuel : nat) (ps : list TopicPartition) (w : World E) (f : Fetcher)
    (s1 s2 : SubscriptionState) (e1 e2 : E) :
  _fetcher w = Some f ->
  has_all_fetch_positions (_subscription w) = true ->
  fetcher_fetched_records K ps (_subscription w) (env w) = (Ok ∅, s1, e1) ->
  loop_sleep K (_consumer_timeout w) s1 e1 = (Ok tt, s2, e2) ->
  (loop_time K (env w) <= loop_time K e2)%Q ->
  getmany K (S fuel) ps 0 w =
    (Returns ∅, set_env e2 (set_subscription s2 w),
     [FetcherFetchedRecords ps; LoopSleep (_consumer_timeout w)]).
Proof.
  intros Hf Hall Hrec Hsleep Hclock.
  unfold getmany. run. rewrite Hall. run. rewrite Hf. cbn.
  rewrite Hrec. cbn. rewrite (bool_decide_eq_true_2 _ eq_refl). cbn.
  rewrite Hsleep. cbn.
  rewrite (zero_timeout_elapsed _ _ Hclock). reflexivity.
Qed.

Lemma unsupported_api_version_spec (v : string) :
  unsupported_api_version v = true <-> v <> "auto" /\ v <> "0.9".
Proof.
  unfold unsupported_api_version.
  rewrite negb_true_iff, orb_false_iff.
  rewrite <- !not_true_iff_false, !String.eqb_eq. reflexivity.
Qed.

(** C10. [start] raises [ValueError] whenever the version it adopts (the
    one [check_version] reports under ['auto'], the configured one
    otherwise) parses to a tuple below [(0, 9)]: neither the fetcher nor the
    coordinator is constructed and no call other than the probes has been
    made. [__init__] raises [ValueError] on an [api_version] other than
    ['auto'] and ['0.9'] before doing anything else. *)
Theorem start_rejects_old_version :
  (forall (w : World E) (e1 e2 : E) (s : string) (t : list Z),
     client_bootstrap K (env w) = (Ok tt, e1) ->
     (is_auto (_api_version w) = true /\
      client_check_version K e1 = (Ok s, e2)) \/
     (is_auto (_api_version w) = false /\ _api_version w = VersionStr s) ->
     parse_api_version s = Some t ->
     tuple_lt t [0; 9] = true ->
     outcome (start K w) = Raises (ValueError "Unsupported Kafka version") /\
     _fetcher (world_after (start K w)) = _fetcher w /\
     _coordinator (world_after (start K w)) = _coordinator w /\
     Forall (fun ev => ev = ClientBootstrap \/ ev = ClientCheckVersion)
            (events (start K w)))
  /\
  (forall (cfg : Config) (e : E),
     cfg_api_version cfg <> "auto" -> cfg_api_version cfg <> "0.9" ->
     init K cfg e = (Raises (ValueError "Unsupported Kafka API version"), e, [])).
Proof.
  split.
  - intros w e1 e2 s t Hboot Hver Hparse Hlt.
    unfold outcome, world_after, events, start. run. rewrite Hboot. cbn.
    destruct Hver as [[Hauto Hcheck]|[Hauto Hcfg]]; rewrite Hauto; cbn.
    + rewrite Hcheck. cbn. rewrite Hparse. cbn. rewrite Hlt. cbn.
      repeat split; auto.
    + rewrite Hcfg. cbn. rewrite Hparse. cbn. rewrite Hlt. cbn.
      repeat split; auto.
  - intros cfg e Ha H9. unfold init.
    rewrite (proj2 (unsupported_api_version_spec _) (conj Ha H9)).
    reflexivity.
Qed.

Lemma update_args_app (a b : list Event) :
  update_args (a ++ b) = update_args a ++ update_args b.
Proof. unfold update_args. apply flat_map_app. Qed.

Lemma events_bind {A B} (m : M A) (k : A -> M B) (w : World E) :
  events (bind m k w) =
  events (m w) ++
  match outcome (m w) with
  | Returns a => events (k a (world_after (m w)))
  | _ => []
  end.
Proof.
  unfold events, outcome, world_after, bind.
  destruct (m w) as [[[a|x|] w1] evs1]; cbn.
  - destruct (k a w1) as [[r w2] evs2]. reflexivity.
  - symmetry. apply app_nil_r.
  - symmetry. apply app_nil_r.
Qed.

Lemma events_mbind {A B} (m : @M E A) (k : A -> @M E B) (w : World E) :
  events (@mbind (@M E) (@M_bind E) A B k m w) =
  events (m w) ++
  match outcome (m w) with
  | Returns a => events (k a (world_after (m w)))
  | _ => []
  end.
Proof. apply events_bind. Qed.

Section UpdateArguments.

Variable P : PartitionsArg -> Prop.

Lemma updates_bind {A B} (m : @M E A) (k : A -> @M E B) :
  updates_satisfy P m -> (forall a, updates_satisfy P (k a)) ->
  updates_satisfy P (bind m k).
Proof.
  intros Hm Hk w. rewrite events_bind, update_args_app.
  apply Forall_app. split; [apply Hm|].
  destruct (outcome (m w)); [apply Hk | constructor | constructor].
Qed.

Lemma updates_silent {A} (m : @M E A) :
  (forall w, events (m w) = []) -> updates_satisfy P m.
Proof. intros H w. rewrite H. constructor. Qed.

Lemma updates_call_shared {A} (ev : Event) (op : SharedOp E A) :
  (forall a, ev = FetcherUpdateFetchPositions a -> P a) ->
  updates_satisfy P (call_shared ev op).
Proof.
  intros H w. unfold events, call_shared.
  destruct (op _ _) as [[r s1] e1]. cbn.
  destruct ev; cbn; try constructor; [apply H; reflexivity | constructor].
Qed.

Lemma updates_call_fetcher {A} (ev : Event) (op : SharedOp E A) :
  (forall a, ev = FetcherUpdateFetchPositions a -> P a) ->
  updates_satisfy P (call_fetcher ev op).
Proof.
  intros H w. unfold call_fetcher.
  destruct (_fetcher w); [apply updates_call_shared, H | constructor].
Qed.

Lemma updates_call_coordinator {A} (ev : Event) (op : SharedOp E A) :
  (forall a, ev = FetcherUpdateFetchPositions a -> P a) ->
  updates_satisfy P (call_coordinator ev op).
Proof.
  intros H w. unfold call_coordinator.
  destruct (_coordinator w); [apply updates_call_shared, H | constructor].
Qed.

Lemma updates_sleep : updates_satisfy P (sleep K).
Proof. intros w. unfold sleep. apply updates_call_shared. discriminate. Qed.

Lemma updates_update_fetch_positions (a : PartitionsArg) :
  P a -> updates_satisfy P (_update_fetch_positions K a).
Proof.
  intros Ha. unfold _update_fetch_positions.
  apply updates_bind; [apply updates_silent; reflexivity|].
  intros g. apply updates_bind.
  - destruct g; [apply updates_call_coordinator; discriminate
                |apply updates_silent; reflexivity].
  - intros _. apply updates_call_fetcher. intros a' [= <-]. exact Ha.
Qed.

Lemma updates_wait_for_assignment (fuel : nat) :
  updates_satisfy P (wait_for_assignment K fuel).
Proof.
  induction fuel as [|fuel IH]; cbn.
  - apply updates_silent. reflexivity.
  - apply updates_bind; [apply updates_silent; reflexivity|].
    intros s. destruct (bool_decide _).
    + apply updates_bind; [apply updates_sleep | intros _; exact IH].
    + apply updates_silent. reflexivity.
Qed.

Lemma updates_getmany_loop (fuel : nat) (ps : list TopicPartition) (t t0 : Q) :
  updates_satisfy P (getmany_loop K fuel ps t t0).
Proof.
  induction fuel as [|fuel IH]; cbn.
  - apply updates_silent. reflexivity.
  - apply updates_bind; [apply updates_call_fetcher; discriminate|].
    intros records. destruct (negb _).
    + apply updates_silent. reflexivity.
    + apply updates_bind; [apply updates_sleep|]. intros _.
      apply updates_bind; [apply updates_silent; reflexivity|].
      intros now. destruct (Qle_bool _ _); [|exact IH].
      apply updates_silent. reflexivity.
Qed.

Lemma updates_getone_loop (fuel : nat) (ps : list TopicPartition) :
  (forall s, P (PartitionSet s)) ->
  updates_satisfy P (getone_loop K fuel ps).
Proof.
  intros HP. induction fuel as [|fuel IH].
  - apply updates_silent. reflexivity.
  - cbn [getone_loop].
    apply updates_bind; [apply updates_wait_for_assignment|]. intros _.
    apply updates_bind; [apply updates_silent; reflexivity|]. intros s.
    apply updates_bind.
    + destruct (has_all_fetch_positions s);
        [apply updates_silent; reflexivity
        |apply updates_update_fetch_positions, HP].
    + intros _.
      apply updates_bind; [apply updates_call_fetcher; discriminate|].
      intros [m|]; [apply updates_silent; reflexivity|].
      apply updates_bind; [apply updates_sleep | intros _; exact IH].
Qed.

End UpdateArguments.

Lemma missing_position_not_all (s : SubscriptionState) (p : TopicPartition)
    (st : PartitionState) :
  assignment s !! p = Some st -> TopicPartitionState.position st = None ->
  has_all_fetch_positions s = false.
Proof.
  intros Hst Hpos. unfold has_all_fetch_positions.
  apply bool_decide_eq_false. intros Hall.
  specialize (Hall p st Hst). cbn in Hall. rewrite Hpos in Hall.
  destruct Hall; discriminate.
Qed.

Lemma assigned_not_empty (s : SubscriptionState) (p : TopicPartition)
    (st : PartitionState) :
  assignment s !! p = Some st ->
  bool_decide (assigned_partitions s = ∅) = false.
Proof.
  intros Hst. apply bool_decide_eq_false. unfold assigned_partitions.
  intros Hdom. apply dom_empty_inv_L in Hdom. rewrite Hdom in Hst.
  rewrite lookup_empty in Hst. discriminate.
Qed.

(** C4. When [position(p)] finds the position of [p] unresolved, its
    run of the resolution routine is the run on the lone partition [p]: the
    fetcher is handed [p] itself and never a collection. From the same
    world, [getmany] hands the fetcher the set [missing_fetch_positions()],
    and so does the first resolution of [getone]; every later resolution of
    [getone] passes a set as well. *)
Theorem position_passes_bare_partition
    (p : TopicPartition) (w : World E) (st : PartitionState) :
  assignment (_subscription w) !! p = Some st ->
  TopicPartitionState.position st = None ->
  let missing := missing_fetch_positions (_subscription w) in
  events (position K p w) =
    events (_update_fetch_positions K (OnePartition p) w) /\
  Forall (eq (OnePartition p)) (update_args (events (position K p w))) /\
  (forall fuel ps timeout_ms,
     Forall (eq (PartitionSet missing))
            (update_args (events (getmany K fuel ps timeout_ms w)))) /\
  (forall fuel ps,
     Forall (fun a => exists s, a = PartitionSet s)
            (update_args (events (getone K fuel ps w)))) /\
  (_fetcher w <> None -> _group_id w = None ->
   update_args (events (position K p w)) = [OnePartition p] /\
   (forall fuel ps timeout_ms,
      update_args (events (getmany K fuel ps timeout_ms w))
        = [PartitionSet missing]) /\
   (forall fuel ps, exists rest,
      update_args (events (getone K (S fuel) ps w))
        = PartitionSet missing :: rest)).
Proof.
  intros Hst Hpos. cbv zeta.
  assert (Hassigned : is_assigned (_subscription w) p = true).
  { unfold is_assigned. apply bool_decide_eq_true. eauto. }
  pose proof (missing_position_not_all _ _ _ Hst Hpos) as Hall.
  assert (Hevents : events (position K p w) =
                    events (_update_fetch_positions K (OnePartition p) w)).
  { unfold events at 1. unfold position. run.
    rewrite Hassigned. cbn. rewrite Hst. cbn. rewrite Hpos. run.
    destruct (_update_fetch_positions K (OnePartition p) w)
      as [[[[]|x|] w1] evs1]; cbn; [|reflexivity|reflexivity].
    destruct (assignment (_subscription w1) !! p); cbn; apply app_nil_r. }
  assert (Hmany : forall fuel ps timeout_ms,
    events (getmany K fuel ps timeout_ms w) =
    events (_update_fetch_positions K
              (PartitionSet (missing_fetch_positions (_subscription w))) w) ++
    match outcome (_update_fetch_positions K
              (PartitionSet (missing_fetch_positions (_subscription w))) w) with
    | Returns _ =>
        let w1 := world_after (_update_fetch_positions K
              (PartitionSet (missing_fetch_positions (_subscription w))) w) in
        events (getmany_loop K fuel ps (inject_Z timeout_ms / 1000)
                             (loop_time K (env w1)) w1)
    | _ => []
    end).
  { intros fuel ps timeout_ms. unfold events at 1. unfold getmany. run.
    rewrite Hall.
    destruct (_update_fetch_positions K (PartitionSet _) w)
      as [[[[]|x|] w1] evs1]; cbn;
      [|symmetry; apply app_nil_r|symmetry; apply app_nil_r].
    destruct (getmany_loop K fuel ps _ _ w1) as [[r w2] evs2]. reflexivity. }
  split; [exact Hevents|]. split; [|split; [|split]].
  - rewrite Hevents. apply updates_update_fetch_positions. reflexivity.
  - intros fuel ps timeout_ms. rewrite Hmany, update_args_app.
    apply Forall_app. split.
    + apply updates_update_fetch_positions. reflexivity.
    + destruct (outcome _); [|constructor|constructor].
      cbv zeta. rewrite (Forall_forall _ _).
      pose proof (updates_getmany_loop (fun _ => False) fuel ps
                    (inject_Z timeout_ms / 1000)) as Hloop.
      intros arg Harg. exfalso.
      eapply (proj1 (Forall_forall _ _) (Hloop _ _)). exact Harg.
  - intros fuel ps. unfold getone. apply updates_getone_loop. eauto.
  - intros Hf Hg.
    destruct (_fetcher w) as [f|] eqn:Hfetcher; [clear Hf|congruence].
    assert (Hupd : forall a,
      update_args (events (_update_fetch_positions K a w)) = [a]).
    { intros a. unfold events, _update_fetch_positions. run.
      rewrite Hg. cbn. rewrite Hfetcher. cbn.
      destruct (fetcher_update_fetch_positions K a _ _) as [[r s1] e1].
      reflexivity. }
    split; [|split].
    + rewrite Hevents. apply Hupd.
    + intros fuel ps timeout_ms. rewrite Hmany, update_args_app, Hupd.
      destruct (outcome _); [|reflexivity|reflexivity].
      cbv zeta.
      pose proof (updates_getmany_loop (fun _ => False) fuel ps
                    (inject_Z timeout_ms / 1000)) as Hloop.
      match goal with
      | |- [_] ++ ?l = _ => destruct l as [|arg l'] eqn:Hl; [reflexivity|]
      end.
      exfalso.
      match type of Hl with
      | update_args (events (getmany_loop K fuel ps _ ?t0 ?w1)) = _ =>
          specialize (Hloop t0 w1); rewrite Hl in Hloop
      end.
      inversion Hloop; assumption.
    + intros fuel ps. unfold getone. cbn [getone_loop].
      assert (Hwait : wait_for_assignment K (S fuel) w = (Returns tt, w, [])).
      { cbn. run. rewrite (assigned_not_empty _ _ _ Hst). reflexivity. }
      rewrite events_mbind, Hwait.
      cbn [events outcome world_after fst snd app].
      rewrite events_mbind.
      cbn [gets events outcome world_after fst snd app].
      rewrite Hall, events_mbind, update_args_app, Hupd.
      eexists. reflexivity.
Qed.

Lemma seek_accepts (p : TopicPartition) (k : Z) (st : PartitionState)
    (w : World E) :
  0 <= k -> assignment (_subscription w) !! p = Some st ->
  seek p (PyInt k) w =
    (Returns tt,
     set_subscription
       (with_assignment
          (<[p := TopicPartitionState.seek k st]> (assignment (_subscription w)))
          (_subscription w)) w,
     []).
Proof.
  intros Hk Hst. unfold seek. run.
  destruct (Z.leb_spec 0 k); [|lia]. cbn.
  rewrite bool_decide_eq_true_2.
  - cbn. rewrite Hst. reflexivity.
  - unfold assigned_partitions. apply elem_of_dom. eauto.
Qed.

Lemma for_each_silent {A} (xs : list A) (body : A -> @M E unit) (w : World E) :
  Forall (fun x => body x w = (Returns tt, w, [])) xs ->
  for_each xs body w = (Returns tt, w, []).
Proof.
  induction 1 as [|x xs Hx _ IH]; [reflexivity|].
  cbn [for_each]. unfold mbind, M_bind, bind. rewrite Hx, IH. reflexivity.
Qed.

Lemma check_all_assigned (ps : list TopicPartition) (w : World E) :
  Forall (fun p => is_Some (assignment (_subscription w) !! p)) ps ->
  for_each ps (fun p =>
    @mbind (@M E) (@M_bind E) _ _
      (fun s => py_assert (bool_decide (p ∈ assigned_partitions s))
                          "Unassigned partition")
      (gets _subscription)) w
  = (Returns tt, w, []).
Proof.
  intros Hall. apply for_each_silent.
  eapply Forall_impl; [exact Hall|]. intros p Hp. run.
  rewrite bool_decide_eq_true_2; [reflexivity|].
  unfold assigned_partitions. apply elem_of_dom. exact Hp.
Qed.

Lemma committed_cached (p : TopicPartition) (w : World E) (g : string)
    (st : PartitionState) (k : Z) :
  _group_id w = Some g ->
  assignment (_subscription w) !! p = Some st ->
  TopicPartitionState.committed st = Some k ->
  committed K p w = (Returns (Some k), w, []).
Proof.
  intros Hg Hst Hk. unfold committed. run. rewrite Hg. cbn.
  unfold is_assigned. rewrite bool_decide_eq_true_2 by eauto.
  rewrite Hst. cbn. rewrite Hk. reflexivity.
Qed.

End Properties.

(* ===================================================================== *)
(** ** The properties on the scripted cluster                             *)
(* ===================================================================== *)

(** The best-effort reading of [stop] fails: when closing the group
    coordinator raises, neither the fetcher nor the client is closed. *)
Lemma stop_not_best_effort :
  ~ (forall (E : Type) (K : Collaborators E) (w : World E),
       _closed w = false -> _coordinator w <> None -> _fetcher w <> None ->
       events (stop K w) = [CoordinatorClose; FetcherClose; ClientClose]).
Proof.
  intros H.
  assert (Hrun : events (stop scripted (started_world failing_cluster unresolved))
                 = [CoordinatorClose; FetcherClose; ClientClose]).
  { apply H; [reflexivity | discriminate | discriminate]. }
  vm_compute in Hrun. discriminate Hrun.
Qed.

Lemma stop_closes_in_order_witness :
  let w := started_world quiet_cluster unresolved in
  _closed w = false /\ _coordinator w = Some GroupCoordinatorObj /\
  _fetcher w = Some FetcherObj /\
  outcome (stop scripted w) = Returns tt /\
  events (stop scripted w) = [CoordinatorClose; FetcherClose; ClientClose].
Proof.
  cbv zeta. split; [reflexivity|]. split; [reflexivity|]. split; [reflexivity|].
  exact (stop_closes_in_order_until_failure scripted
           (started_world quiet_cluster unresolved)
           GroupCoordinatorObj FetcherObj eq_refl eq_refl eq_refl).
Defined.

Lemma getmany_zero_timeout_witness :
  let w := started_world quiet_cluster resolved in
  let c1 := with_clock (0 + (1 # 10))%Q quiet_cluster in
  _fetcher w = Some FetcherObj /\
  has_all_fetch_positions (_subscription w) = true /\
  fetcher_fetched_records scripted [] (_subscription w) (env w)
    = (Ok ∅, _subscription w, quiet_cluster) /\
  loop_sleep scripted (_consumer_timeout w) (_subscription w) quiet_cluster
    = (Ok tt, _subscription w, c1) /\
  (loop_time scripted (env w) <= loop_time scripted c1)%Q /\
  getmany scripted 1 [] 0 w =
    (Returns ∅, set_env c1 (set_subscription (_subscription w) w),
     [FetcherFetchedRecords []; LoopSleep (_consumer_timeout w)]).
Proof.
  cbv zeta.
  assert (Hclock : (loop_time scripted
                      (env (started_world quiet_cluster resolved))
                    <= loop_time scripted
                         (with_clock (0 + (1 # 10))%Q quiet_cluster))%Q).
  { vm_compute. discriminate. }
  split; [reflexivity|]. split; [reflexivity|]. split; [reflexivity|].
  split; [reflexivity|]. split; [exact Hclock|].
  exact (getmany_zero_timeout scripted 0 [] (started_world quiet_cluster resolved)
           FetcherObj _ _ _ _ eq_refl eq_refl eq_refl eq_refl Hclock).
Defined.

Lemma update_fetch_positions_calls_witness :
  let w := started_world quiet_cluster unresolved in
  _fetcher w = Some FetcherObj /\
  (forall g, _group_id w = Some g -> _coordinator w <> None) /\
  events (_update_fetch_positions scripted (OnePartition tp0) w) =
    [CoordinatorRefreshCommittedOffsets;
     FetcherUpdateFetchPositions (OnePartition tp0)].
Proof.
  cbv zeta.
  assert (Hco : forall g,
            _group_id (started_world quiet_cluster unresolved) = Some g ->
            _coordinator (started_world quiet_cluster unresolved) <> None).
  { intros g _. discriminate. }
  split; [reflexivity|]. split; [exact Hco|].
  exact (update_fetch_positions_calls scripted (OnePartition tp0)
           (started_world quiet_cluster unresolved) FetcherObj eq_refl Hco).
Defined.

Lemma position_passes_bare_partition_witness :
  let w := groupless_world quiet_cluster unresolved in
  assignment (_subscription w) !! tp0 = Some unresolved /\
  TopicPartitionState.position unresolved = None /\
  update_args (events (position scripted tp0 w)) = [OnePartition tp0] /\
  update_args (events (getmany scripted 1 [] 0 w))
    = [PartitionSet (missing_fetch_positions (_subscription w))].
Proof.
  cbv zeta.
  assert (Hst : assignment
                  (_subscription (groupless_world quiet_cluster unresolved))
                  !! tp0 = Some unresolved) by reflexivity.
  split; [exact Hst|]. split; [reflexivity|].
  destruct (position_passes_bare_partition scripted tp0
              (groupless_world quiet_cluster unresolved) unresolved
              Hst eq_refl) as (_ & _ & _ & _ & H).
  destruct H as (Hpos & Hmany & _); [discriminate | reflexivity |].
  split; [exact Hpos | exact (Hmany 1%nat [] 0)].
Defined.

Lemma commit_witness :
  let w0 := groupless_world quiet_cluster resolved in
  let w1 := started_world quiet_cluster resolved in
  (_group_id w0 = None /\
   commit scripted None w0 =
     (Raises (AssertionError "Requires group_id"), w0, [])) /\
  (_group_id w1 = Some "g" /\ _coordinator w1 = Some GroupCoordinatorObj /\
   events (commit scripted None w1) =
     [CoordinatorCommitOffsets (all_consumed_offsets (_subscription w1))]).
Proof.
  cbv zeta. split.
  - split; [reflexivity|].
    exact (proj1 (commit_requires_group_and_snapshots scripted
                    (groupless_world quiet_cluster resolved)) eq_refl None).
  - split; [reflexivity|]. split; [reflexivity|].
    exact (proj1 (proj2 (commit_requires_group_and_snapshots scripted
                           (started_world quiet_cluster resolved))
                    "g" GroupCoordinatorObj eq_refl eq_refl)).
Defined.

Lemma seek_witness :
  let w := started_world quiet_cluster unresolved in
  (TopicPartitionState.position <$>
     assignment (_subscription (world_after (seek tp0 (PyInt 7) w))) !! tp0
   = Some (Some 7)) /\
  (exists msg, seek tp0 (PyInt (-1)) w = (Raises (AssertionError msg), w, [])) /\
  (exists msg, seek tp1 (PyInt 7) w = (Raises (AssertionError msg), w, [])).
Proof.
  cbv zeta. split; [|split].
  - destruct (seek_spec tp0 (PyInt 7) (started_world quiet_cluster unresolved))
      as (_ & _ & H).
    destruct H as (k & st & Hk & _ & _ & _ & Hpos & _).
    + split; [exists 7; split; [reflexivity | lia] | eexists; reflexivity].
    + injection Hk as <-. exact Hpos.
  - apply (seek_spec tp0 (PyInt (-1)) (started_world quiet_cluster unresolved)).
    intros [(k & Hk & Hge) _]. injection Hk as <-. lia.
  - apply (seek_spec tp1 (PyInt 7) (started_world quiet_cluster unresolved)).
    intros [_ [st Hst]]. vm_compute in Hst. discriminate Hst.
Defined.

Lemma committed_single_lookup_witness :
  let w := started_world quiet_cluster unresolved in
  _group_id w = Some "g" /\ _coordinator w = Some GroupCoordinatorObj /\
  assignment (_subscription w) !! tp0 = Some unresolved /\
  assignment (_subscription w) !! tp1 = None /\
  events (committed scripted tp0 w) = [CoordinatorRefreshCommittedOffsets] /\
  outcome (committed scripted tp0 w) = Returns None /\
  events (committed scripted tp1 w) = [CoordinatorFetchCommittedOffsets [tp1]] /\
  outcome (committed scripted tp1 w) = Returns None.
Proof.
  cbv zeta.
  destruct (committed_single_lookup scripted tp0
              (started_world quiet_cluster unresolved) "g" GroupCoordinatorObj
              eq_refl eq_refl) as [Hassigned _].
  destruct (committed_single_lookup scripted tp1
              (started_world quiet_cluster unresolved) "g" GroupCoordinatorObj
              eq_refl eq_refl) as [_ Hother].
  destruct (Hassigned unresolved eq_refl eq_refl) as [Hev Hret].
  destruct (Hother eq_refl) as [Hev' Hret'].
  do 4 (split; [reflexivity|]).
  split; [exact Hev|]. split; [eapply Hret; reflexivity|].
  split; [exact Hev'|]. eapply Hret'; reflexivity.
Defined.

Lemma start_rejects_old_version_witness :
  let w := initial_world auto_config old_cluster in
  client_bootstrap scripted (env w) = (Ok tt, old_cluster) /\
  is_auto (_api_version w) = true /\
  client_check_version scripted old_cluster = (Ok "0.8.2", old_cluster) /\
  parse_api_version "0.8.2" = Some [0; 8; 2] /\
  tuple_lt [0; 8; 2] [0; 9] = true /\
  outcome (start scripted w) = Raises (ValueError "Unsupported Kafka version") /\
  _fetcher (world_after (start scripted w)) = None /\
  _coordinator (world_after (start scripted w)) = None /\
  init scripted bad_config old_cluster =
    (Raises (ValueError "Unsupported Kafka API version"), old_cluster, []).
Proof.
  cbv zeta.
  destruct (start_rejects_old_version scripted) as [Hstart Hinit].
  destruct (Hstart (initial_world auto_config old_cluster)
              old_cluster old_cluster "0.8.2" [0; 8; 2] eq_refl
              (or_introl (conj eq_refl eq_refl)) eq_refl eq_refl)
    as (Hout & Hf & Hc & _).
  do 5 (split; [reflexivity|]).
  split; [exact Hout|]. split; [exact Hf|]. split; [exact Hc|].
  apply Hinit; discriminate.
Defined.

(* ===================================================================== *)
(** ** Further properties of the consumer                                 *)
(* ===================================================================== *)

Section MoreProperties.

Context {E : Type} (K : Collaborators E).

Lemma is_assigned_true (s : SubscriptionState) (p : TopicPartition)
    (st : PartitionState) :
  assignment s !! p = Some st -> is_assigned s p = true.
Proof. intros H. unfold is_assigned. apply bool_decide_eq_true. eauto. Qed.

Lemma is_assigned_false (s : SubscriptionState) (p : TopicPartition) :
  assignment s !! p = None -> is_assigned s p = false.
Proof.
  intros H. unfold is_assigned. apply bool_decide_eq_false. rewrite H.
  intros [? ?]. discriminate.
Qed.

(** X1. [highwater] and [position] are local reads whenever they can be:
    on a partition that is not assigned both fail their assertion, and on
    an assigned one [highwater] always, and [position] once the position is
    resolved, return the stored value; in all these cases no collaborator
    is called and the world is left as it was. *)
Theorem local_reads (p : TopicPartition) (w : World E) :
  (assignment (_subscription w) !! p = None ->
   highwater p w = (Raises (AssertionError "Partition is not assigned"), w, []) /\
   position K p w = (Raises (AssertionError "Partition is not assigned"), w, []))
  /\
  (forall st, assignment (_subscription w) !! p = Some st ->
     highwater p w = (Returns (TopicPartitionState.highwater st), w, []) /\
     (forall k, TopicPartitionState.position st = Some k ->
        position K p w = (Returns (Some k), w, []))).
Proof.
  split.
  - intros Hnone. pose proof (is_assigned_false _ _ Hnone) as Ha.
    split; [unfold highwater | unfold position]; run; rewrite Ha; reflexivity.
  - intros st Hst. pose proof (is_assigned_true _ _ _ Hst) as Ha. split.
    + unfold highwater. run. rewrite Ha. cbn. rewrite Hst. reflexivity.
    + intros k Hk. unfold position. run. rewrite Ha. cbn. rewrite Hst. cbn.
      rewrite Hk. reflexivity.
Qed.

(** X2. After a successful [seek(p, k)] the next [position(p)] returns
    exactly [k], calls no collaborator and changes nothing. *)
Theorem seek_then_position (p : TopicPartition) (k : Z) (w : World E) :
  0 <= k -> is_Some (assignment (_subscription w) !! p) ->
  outcome (seek p (PyInt k) w) = Returns tt /\
  let w1 := world_after (seek p (PyInt k) w) in
  position K p w1 = (Returns (Some k), w1, []).
Proof.
  intros Hk [st Hst]. rewrite (seek_accepts p k st w Hk Hst). cbn.
  split; [reflexivity|].
  unfold position. run.
  rewrite (is_assigned_true _ p (TopicPartitionState.seek k st))
    by (cbn; apply lookup_insert_eq).
  cbn. rewrite lookup_insert_eq. reflexivity.
Qed.

(** X3. Of two seeks on the same partition the later one decides: seeking
    to [k1] and then to [k2] leaves the world that seeking to [k2] alone
    leaves. Seeks on two different partitions give the same world in either
    order. *)
Theorem seek_last_wins (p q : TopicPartition) (k1 k2 : Z) (w : World E) :
  0 <= k1 -> 0 <= k2 ->
  is_Some (assignment (_subscription w) !! p) ->
  is_Some (assignment (_subscription w) !! q) ->
  world_after (seek p (PyInt k2) (world_after (seek p (PyInt k1) w)))
    = world_after (seek p (PyInt k2) w)
  /\
  (p <> q ->
   world_after (seek q (PyInt k2) (world_after (seek p (PyInt k1) w)))
     = world_after (seek p (PyInt k1) (world_after (seek q (PyInt k2) w)))).
Proof.
  intros Hk1 Hk2 [st Hst] [sq Hsq]. split.
  - rewrite (seek_accepts p k1 st w Hk1 Hst). cbn [world_after fst snd].
    rewrite (seek_accepts p k2 (TopicPartitionState.seek k1 st) _ Hk2)
      by (cbn; apply lookup_insert_eq).
    rewrite (seek_accepts p k2 st w Hk2 Hst). cbn.
    unfold set_subscription, with_assignment. cbn.
    rewrite insert_insert_eq. reflexivity.
  - intros Hne.
    rewrite (seek_accepts p k1 st w Hk1 Hst).
    rewrite (seek_accepts q k2 sq w Hk2 Hsq). cbn [world_after fst snd].
    rewrite (seek_accepts q k2 sq _ Hk2)
      by (cbn; rewrite lookup_insert_ne by congruence; exact Hsq).
    rewrite (seek_accepts p k1 st _ Hk1)
      by (cbn; rewrite lookup_insert_ne by congruence; exact Hst).
    cbn. unfold set_subscription, with_assignment. cbn.
    rewrite (insert_insert_ne _ p q) by congruence. reflexivity.
Qed.

(** X4. [position] and [committed] index the assignment again after their
    remote call: when that call returns and the partition is no longer
    assigned (a rebalance took it away meanwhile) they raise [KeyError];
    when it is still assigned they return the field as it then stands,
    which for [position] may still be [None]. *)
Theorem lookup_after_remote_call
    (p : TopicPartition) (w w1 : World E) (st : PartitionState)
    (evs : list Event) :
  assignment (_subscription w) !! p = Some st ->
  (TopicPartitionState.position st = None ->
   _update_fetch_positions K (OnePartition p) w = (Returns tt, w1, evs) ->
   position K p w =
     match assignment (_subscription w1) !! p with
     | Some st1 => (Returns (TopicPartitionState.position st1), w1, evs)
     | None => (Raises KeyError, w1, evs)
     end)
  /\
  (forall g c s1 e1,
     TopicPartitionState.committed st = None ->
     _group_id w = Some g -> _coordinator w = Some c ->
     coordinator_refresh_committed_offsets K (_subscription w) (env w)
       = (Ok tt, s1, e1) ->
     outcome (committed K p w) =
       match assignment s1 !! p with
       | Some st1 => Returns (TopicPartitionState.committed st1)
       | None => Raises KeyError
       end).
Proof.
  intros Hst. pose proof (is_assigned_true _ _ _ Hst) as Ha. split.
  - intros Hpos Hupd. unfold position. run. rewrite Ha. cbn. rewrite Hst. cbn.
    rewrite Hpos. run. rewrite Hupd.
    destruct (assignment (_subscription w1) !! p); cbn;
      rewrite app_nil_r; reflexivity.
  - intros g c s1 e1 Hcom Hg Hco Hcall. unfold outcome, committed. run.
    rewrite Hg. cbn. rewrite Ha, Hst. cbn. rewrite Hcom. cbn.
    rewrite Hco. cbn. rewrite Hcall. cbn.
    destruct (assignment s1 !! p); reflexivity.
Qed.

Lemma start_postcondition (w : World E) :
  outcome (start K w) = Returns tt ->
  _fetcher (world_after (start K w)) = Some FetcherObj /\
  _coordinator (world_after (start K w)) = Some GroupCoordinatorObj /\
  exists t, _api_version (world_after (start K w)) = VersionTuple t /\
            tuple_lt t [0; 9] = false.
Proof.
  unfold outcome, world_after, start, subscription_assign_from_user.
  run_all; intros; try discriminate; repeat split; eauto.
Qed.

(** X5. When [start] returns normally the consumer is started: the fetcher
    and the group coordinator are both constructed and [_api_version] holds
    a tuple that is not below [(0, 9)]. *)
Theorem start_returns_started (w : World E) :
  outcome (start K w) = Returns tt ->
  let w1 := world_after (start K w) in
  _fetcher w1 = Some FetcherObj /\
  _coordinator w1 = Some GroupCoordinatorObj /\
  exists t, _api_version w1 = VersionTuple t /\ tuple_lt t [0; 9] = false.
Proof. exact (start_postcondition w). Qed.

Lemma start_on_tuple (w : World E) (t : list Z) (e1 : E) :
  _api_version w = VersionTuple t ->
  client_bootstrap K (env w) = (Ok tt, e1) ->
  start K w = (Raises AttributeError, set_env e1 w, [ClientBootstrap]).
Proof.
  intros Hv Hboot. unfold start. run. rewrite Hboot. cbn.
  rewrite Hv. cbn. rewrite Hv. reflexivity.
Qed.

(** X6. [start] cannot be called twice: once a call has returned,
    [_api_version] is a tuple, so a second call bootstraps the client again
    and then raises [AttributeError], constructing nothing new. *)
Theorem start_twice_fails (w : World E) (e1 : E) :
  outcome (start K w) = Returns tt ->
  let w1 := world_after (start K w) in
  client_bootstrap K (env w1) = (Ok tt, e1) ->
  start K w1 = (Raises AttributeError, set_env e1 w1, [ClientBootstrap]).
Proof.
  intros Hret w1 Hboot.
  destruct (start_postcondition w Hret) as (_ & _ & t & Ht & _).
  exact (start_on_tuple w1 t e1 Ht Hboot).
Qed.

(** X7. With a supported version and a group id, [start] probes, constructs
    the fetcher and the coordinator and then only joins the group: the calls
    are bootstrap, the version check under ['auto'], and
    [ensure_active_group], whose result is the result of [start]; no
    metadata refresh is forced and the subscription is touched by the
    coordinator alone. *)
Theorem start_joins_group
    (w : World E) (e1 e2 : E) (s g : string) (t : list Z) :
  client_bootstrap K (env w) = (Ok tt, e1) ->
  (is_auto (_api_version w) = true /\
   client_check_version K e1 = (Ok s, e2)) \/
  (is_auto (_api_version w) = false /\ _api_version w = VersionStr s /\
   e2 = e1) ->
  parse_api_version s = Some t ->
  tuple_lt t [0; 9] = false ->
  _group_id w = Some g ->
  let join := coordinator_ensure_active_group K (_subscription w) e2 in
  outcome (start K w) = of_result (fst (fst join)) /\
  _subscription (world_after (start K w)) = snd (fst join) /\
  events (start K w) =
    ClientBootstrap ::
    (if is_auto (_api_version w) then [ClientCheckVersion] else []) ++
    [FetcherInit; CoordinatorInit; CoordinatorEnsureActiveGroup].
Proof.
  intros Hboot Hver Hparse Hlt Hg. cbv zeta.
  unfold outcome, world_after, events, start. run. rewrite Hboot. cbn.
  destruct Hver as [[Hauto Hcheck]|(Hauto & Hcfg & ->)]; rewrite Hauto; cbn.
  - rewrite Hcheck. cbn. rewrite Hparse. cbn. rewrite Hlt. cbn.
    rewrite Hg. cbn.
    destruct (coordinator_ensure_active_group K _ e2) as [[r s1] e3].
    repeat split; reflexivity.
  - rewrite Hcfg. cbn. rewrite Hparse. cbn. rewrite Hlt. cbn.
    rewrite Hg. cbn.
    destruct (coordinator_ensure_active_group K _ e1) as [[r s1] e3].
    repeat split; reflexivity.
Qed.

Lemma collect_partitions_elem (e : E) (topics : list string)
    (parts : list TopicPartition) :
  collect_partitions K e topics = Ok parts ->
  forall tp, tp ∈ parts <->
    topic tp ∈ topics /\
    exists ids, cluster_partitions_for_topic K e (topic tp) = Some ids /\
                partition tp ∈ ids.
Proof.
  revert parts. induction topics as [|t rest IH]; intros parts Hc tp.
  - injection Hc as <-. split.
    + intros Hin. inversion Hin.
    + intros [Hin _]. inversion Hin.
  - cbn in Hc.
    destruct (cluster_partitions_for_topic K e t) as [ids|] eqn:Hids;
      [|discriminate].
    destruct (collect_partitions K e rest) as [l|] eqn:Hrest; [|discriminate].
    injection Hc as <-. rewrite elem_of_app, (IH l eq_refl tp).
    rewrite list_elem_of_fmap. split.
    + intros [(i & -> & Hi)|[Hin Hex]].
      * cbn. split; [left|]. exists ids. split; [exact Hids|exact Hi].
      * split; [right; exact Hin | exact Hex].
    + intros [Hin (ids' & Hids' & Hp)].
      destruct (decide (topic tp = t)) as [Heq|Hne].
      * left. exists (partition tp). rewrite Heq in Hids'.
        rewrite Hids in Hids'. injection Hids' as <-.
        split; [destruct tp; cbn in *; congruence | exact Hp].
      * right. split; [|eauto].
        apply elem_of_cons in Hin as [Heq|Hin]; [congruence|exact Hin].
Qed.

Lemma collect_partitions_unknown (e : E) (topics : list string) (t : string) :
  t ∈ topics -> cluster_partitions_for_topic K e t = None ->
  collect_partitions K e topics = Err TypeError.
Proof.
  induction topics as [|t' rest IH]; intros Hin Hnone; [inversion Hin|].
  cbn. destruct (cluster_partitions_for_topic K e t') as [ids|] eqn:Hids;
    [|reflexivity].
  apply elem_of_cons in Hin as [->|Hin]; [congruence|].
  rewrite (IH Hin Hnone). reflexivity.
Qed.

(** X8. Without a group id and with a pending topic subscription, [start]
    constructs the fetcher and the coordinator, forces a metadata update and
    calls the coordinator not at all. If the metadata then knows every
    topic of [_topics], the consumer ends manually assigned to exactly the
    partitions the metadata lists for those topics; if it does not know one
    of them, [start] raises [TypeError]. *)
Theorem start_assigns_all_partitions
    (w : World E) (e1 e2 e3 : E) (s : string) (t : list Z) :
  client_bootstrap K (env w) = (Ok tt, e1) ->
  (is_auto (_api_version w) = true /\
   client_check_version K e1 = (Ok s, e2)) \/
  (is_auto (_api_version w) = false /\ _api_version w = VersionStr s /\
   e2 = e1) ->
  parse_api_version s = Some t ->
  tuple_lt t [0; 9] = false ->
  _group_id w = None ->
  needs_partition_assignment (_subscription w) = true ->
  client_force_metadata_update K e2 = (Ok tt, e3) ->
  events (start K w) =
    ClientBootstrap ::
    (if is_auto (_api_version w) then [ClientCheckVersion] else []) ++
    [FetcherInit; CoordinatorInit; ClientForceMetadataUpdate]
  /\
  ((forall topic, topic ∈ _topics w ->
      is_Some (cluster_partitions_for_topic K e3 topic)) ->
   outcome (start K w) = Returns tt /\
   mode (_subscription (world_after (start K w))) = USER_ASSIGNED /\
   forall tp,
     tp ∈ assigned_partitions (_subscription (world_after (start K w))) <->
     topic tp ∈ _topics w /\
     exists ids, cluster_partitions_for_topic K e3 (topic tp) = Some ids /\
                 partition tp ∈ ids)
  /\
  (forall topic, topic ∈ _topics w ->
     cluster_partitions_for_topic K e3 topic = None ->
     outcome (start K w) = Raises TypeError).
Proof.
  intros Hboot Hver Hparse Hlt Hg Hneeds Hforce.
  assert (Hrun : start K w =
    match collect_partitions K e3 (_topics w) with
    | Ok parts =>
        (Returns tt,
         set_subscription
           (mkSub USER_ASSIGNED [] false (reset_policy (_subscription w))
              (list_to_map ((fun tp => (tp, TopicPartitionState.fresh)) <$> parts)))
           (set_env e3
              (set_coordinator (Some GroupCoordinatorObj)
                 (set_fetcher (Some FetcherObj)
                    (set_api_version (VersionTuple t) w)))),
         ClientBootstrap ::
         (if is_auto (_api_version w) then [ClientCheckVersion] else []) ++
         [FetcherInit; CoordinatorInit; ClientForceMetadataUpdate])
    | Err x =>
        (Raises x,
         set_env e3
           (set_coordinator (Some GroupCoordinatorObj)
              (set_fetcher (Some FetcherObj)
                 (set_api_version (VersionTuple t) w))),
         ClientBootstrap ::
         (if is_auto (_api_version w) then [ClientCheckVersion] else []) ++
         [FetcherInit; CoordinatorInit; ClientForceMetadataUpdate])
    end).
  { unfold start. run. rewrite Hboot. cbn.
    destruct Hver as [[Hauto Hcheck]|(Hauto & Hcfg & ->)]; rewrite Hauto; cbn.
    - rewrite Hcheck. cbn. rewrite Hparse. cbn. rewrite Hlt. cbn.
      rewrite Hg. cbn. rewrite Hneeds. cbn. rewrite Hforce. cbn.
      destruct (collect_partitions K e3 (_topics w)); reflexivity.
    - rewrite Hcfg. cbn. rewrite Hparse. cbn. rewrite Hlt. cbn.
      rewrite Hg. cbn. rewrite Hneeds. cbn. rewrite Hforce. cbn.
      destruct (collect_partitions K e3 (_topics w)); reflexivity. }
  split; [|split].
  - rewrite Hrun. destruct (collect_partitions K e3 (_topics w)); reflexivity.
  - intros Hknown.
    destruct (collect_partitions K e3 (_topics w)) as [parts|x] eqn:Hc.
    + rewrite Hrun. cbn. split; [reflexivity|]. split; [reflexivity|].
      intros tp. rewrite <- (collect_partitions_elem e3 _ parts Hc tp).
      unfold assigned_partitions. cbn.
      rewrite dom_list_to_map_L, elem_of_list_to_set, <- list_fmap_compose.
      rewrite list_elem_of_fmap. split.
      * intros (tp' & -> & Hin). exact Hin.
      * intros Hin. exists tp. split; [reflexivity|exact Hin].
    + exfalso. clear Hrun. revert Hknown Hc.
      induction (_topics w) as [|t0 rest IH]; intros Hknown Hc;
        [discriminate|].
      cbn in Hc.
      destruct (Hknown t0 (list_elem_of_here _ _)) as [ids Hids].
      rewrite Hids in Hc.
      destruct (collect_partitions K e3 rest) eqn:Hrest; [discriminate|].
      apply (IH (fun t' Hin => Hknown t' (list_elem_of_further _ _ _ Hin))
                Hc).
  - intros t0 Hin Hnone. rewrite Hrun.
    rewrite (collect_partitions_unknown e3 _ t0 Hin Hnone). reflexivity.
Qed.

(** X9. A consumer just constructed is open and unstarted, [__init__]
    having made at most the one [set_topics] call; stopping it before
    [start] closes the client and nothing else. *)
Theorem stop_unstarted
    (cfg : Config) (e e1 : E) (w : World E) (evs : list Event) :
  init K cfg e = (Returns w, e1, evs) ->
  _fetcher w = None /\ _coordinator w = None /\ _closed w = false /\
  _group_id w = cfg_group_id cfg /\
  evs = match cfg_topics cfg with
        | [] => []
        | topics => [ClientSetTopics topics]
        end /\
  events (stop K w) = [ClientClose] /\
  outcome (stop K w) = of_result (fst (client_close K (env w))).
Proof.
  unfold init, subscription_subscribe.
  destruct (unsupported_api_version _); [discriminate|].
  destruct (cfg_topics cfg) as [|t0 topics]; run.
  - intros [= <- <- <-]. unfold events, outcome, stop. run.
    destruct (client_close K e) as [r e2]. repeat split; reflexivity.
  - destruct (client_set_topics K (t0 :: topics) e) as [[[]|x] e2];
      cbn; [|discriminate].
    intros [= <- <- <-]. unfold events, outcome, stop. run.
    destruct (client_close K e2) as [r e3]. repeat split; reflexivity.
Qed.

(** X10. Before [start] there is neither fetcher nor coordinator, and the
    methods that need one raise [AttributeError] at the point of use, with
    no collaborator called and the world unchanged: [commit] and a
    [committed] that would go remote (with a group id), a [position] that
    would resolve, and the polling calls once they reach the fetcher. *)
Theorem unstarted_methods_fail (w : World E) :
  _fetcher w = None -> _coordinator w = None ->
  (forall g offsets, _group_id w = Some g ->
     commit K offsets w = (Raises AttributeError, w, [])) /\
  (forall g p, _group_id w = Some g ->
     assignment (_subscription w) !! p = None \/
     (exists st, assignment (_subscription w) !! p = Some st /\
                 TopicPartitionState.committed st = None) ->
     committed K p w = (Raises AttributeError, w, [])) /\
  (forall p st, assignment (_subscription w) !! p = Some st ->
     TopicPartitionState.position st = None ->
     position K p w = (Raises AttributeError, w, [])) /\
  (forall fuel ps timeout_ms,
     getmany K (S fuel) ps timeout_ms w = (Raises AttributeError, w, [])) /\
  (forall fuel ps, assigned_partitions (_subscription w) <> ∅ ->
     getone K (S fuel) ps w = (Raises AttributeError, w, [])).
Proof.
  intros Hf Hco.
  assert (Hupd : forall a,
    _update_fetch_positions K a w = (Raises AttributeError, w, [])).
  { intros a. unfold _update_fetch_positions. run.
    destruct (_group_id w); cbn; rewrite ?Hco, ?Hf; reflexivity. }
  split; [|split; [|split; [|split]]].
  - intros g offsets Hg. unfold commit. run. rewrite Hg. cbn.
    destruct offsets; cbn; rewrite Hco; reflexivity.
  - intros g p Hg Hp. unfold committed. run. rewrite Hg. cbn.
    destruct Hp as [Hnone|(st & Hst & Hcom)].
    + rewrite (is_assigned_false _ _ Hnone). cbn. rewrite Hco. reflexivity.
    + rewrite (is_assigned_true _ _ _ Hst). rewrite Hst. cbn. rewrite Hcom.
      cbn. rewrite Hco. reflexivity.
  - intros p st Hst Hpos. unfold position. run.
    rewrite (is_assigned_true _ _ _ Hst). cbn. rewrite Hst. cbn. rewrite Hpos.
    run. rewrite Hupd. reflexivity.
  - intros fuel ps timeout_ms. unfold getmany. run.
    destruct (has_all_fetch_positions (_subscription w)).
    + run. rewrite Hf. reflexivity.
    + rewrite Hupd. reflexivity.
  - intros fuel ps Hne. unfold getone. cbn [getone_loop wait_for_assignment].
    run. rewrite (bool_decide_eq_false_2 _ Hne). cbn.
    destruct (has_all_fetch_positions (_subscription w)).
    + run. rewrite Hf. reflexivity.
    + rewrite Hupd. reflexivity.
Qed.

Lemma blind_bind {A B} (m : @M E A) (k : A -> @M E B) :
  closed_blind m -> (forall a, closed_blind (k a)) -> closed_blind (bind m k).
Proof.
  intros Hm Hk b w. unfold bind. rewrite Hm.
  destruct (m w) as [[[a|x|] w1] evs1]; try reflexivity.
  rewrite Hk. destruct (k a w1) as [[r w2] evs2]. reflexivity.
Qed.

Lemma blind_mbind {A B} (m : @M E A) (k : A -> @M E B) :
  closed_blind m -> (forall a, closed_blind (k a)) ->
  closed_blind (@mbind (@M E) (@M_bind E) A B k m).
Proof. apply blind_bind. Qed.

Lemma blind_ret {A} (a : A) : closed_blind (@ret E A a).
Proof. intros b w. reflexivity. Qed.

Lemma blind_raise {A} (x : Exn) : closed_blind (@raise E A x).
Proof. intros b w. reflexivity. Qed.

Lemma blind_out_of_fuel {A} : closed_blind (@out_of_fuel E A).
Proof. intros b w. reflexivity. Qed.

Lemma blind_gets {A} (f : World E -> A) :
  (forall b w, f (set_closed b w) = f w) -> closed_blind (gets f).
Proof. intros H b w. unfold gets. rewrite H. reflexivity. Qed.

Lemma blind_assert (c : bool) (msg : string) :
  closed_blind (@py_assert E c msg).
Proof. intros b w. destruct c; reflexivity. Qed.

Lemma blind_call_shared {A} (ev : Event) (op : SharedOp E A) :
  closed_blind (call_shared ev op).
Proof.
  intros b w. unfold call_shared. cbn.
  destruct (op _ _) as [[r s1] e1]. reflexivity.
Qed.

Lemma blind_call_fetcher {A} (ev : Event) (op : SharedOp E A) :
  closed_blind (call_fetcher ev op).
Proof.
  intros b w. unfold call_fetcher. cbn.
  destruct (_fetcher w); [apply blind_call_shared | reflexivity].
Qed.

Lemma blind_call_coordinator {A} (ev : Event) (op : SharedOp E A) :
  closed_blind (call_coordinator ev op).
Proof.
  intros b w. unfold call_coordinator. cbn.
  destruct (_coordinator w); [apply blind_call_shared | reflexivity].
Qed.

Lemma blind_sleep : closed_blind (sleep K).
Proof. intros b w. unfold sleep. cbn. apply blind_call_shared. Qed.

Lemma blind_assignment_at (p : TopicPartition) :
  closed_blind (@assignment_at E p).
Proof.
  intros b w. unfold assignment_at. cbn.
  destruct (assignment (_subscription w) !! p); reflexivity.
Qed.

Lemma blind_for_each {A} (xs : list A) (body : A -> @M E unit) :
  (forall x, closed_blind (body x)) -> closed_blind (for_each xs body).
Proof.
  intros H. induction xs as [|x xs IH]; cbn [for_each].
  - apply blind_ret.
  - apply blind_mbind; [apply H | intros _; exact IH].
Qed.

Create HintDb blind.

#[local] Hint Resolve blind_ret blind_raise blind_out_of_fuel blind_assert
  blind_call_shared blind_call_fetcher blind_call_coordinator blind_sleep
  blind_assignment_at : blind.

(** Decompose a coroutine into its binds and close the leaves. *)
Ltac blind :=
  repeat first
    [ apply blind_mbind; [|intros ?]
    | apply blind_gets; reflexivity
    | solve [auto with blind]
    | match goal with
      | |- closed_blind (match ?x with _ => _ end) => destruct x
      | |- closed_blind (if ?x then _ else _) => destruct x
      end ].

Lemma blind_update_fetch_positions (a : PartitionsArg) :
  closed_blind (_update_fetch_positions K a).
Proof. unfold _update_fetch_positions. blind. Qed.

Lemma blind_seek (p : TopicPartition) (v : PyVal) : closed_blind (@seek E p v).
Proof.
  unfold seek. blind. intros b w. reflexivity.
Qed.

Lemma blind_committed (p : TopicPartition) : closed_blind (committed K p).
Proof. unfold committed. blind. Qed.

Lemma blind_getmany_loop (fuel : nat) (ps : list TopicPartition) (t t0 : Q) :
  closed_blind (getmany_loop K fuel ps t t0).
Proof.
  induction fuel as [|fuel IH]; cbn [getmany_loop]; [apply blind_out_of_fuel|].
  unfold time. blind.
Qed.

Lemma blind_wait_for_assignment (fuel : nat) :
  closed_blind (wait_for_assignment K fuel).
Proof.
  induction fuel as [|fuel IH]; cbn [wait_for_assignment];
    [apply blind_out_of_fuel|].
  blind.
Qed.

Lemma blind_getone_loop (fuel : nat) (ps : list TopicPartition) :
  closed_blind (getone_loop K fuel ps).
Proof.
  induction fuel as [|fuel IH]; [apply blind_out_of_fuel|].
  cbn [getone_loop].
  apply blind_mbind; [apply blind_wait_for_assignment|]. intros _.
  apply blind_mbind; [apply blind_gets; reflexivity|]. intros s.
  apply blind_mbind.
  - destruct (has_all_fetch_positions s);
      [apply blind_ret | apply blind_update_fetch_positions].
  - intros _. blind.
Qed.

(** X11. [_closed] is consulted by [stop] alone. Every other method runs
    on a closed consumer exactly as on an open one, making the same
    collaborator calls with the same results, and leaves the flag as it
    found it: stopping the consumer does not by itself disable [getone],
    [getmany], [commit], [committed], [position], [seek] or
    [seek_to_committed]. *)
Theorem closed_flag_only_guards_stop :
  (forall fuel ps, closed_blind (getone K fuel ps)) /\
  (forall fuel ps timeout_ms, closed_blind (getmany K fuel ps timeout_ms)) /\
  (forall offsets, closed_blind (commit K offsets)) /\
  (forall p, closed_blind (committed K p)) /\
  (forall p, closed_blind (position K p)) /\
  (forall p v, closed_blind (@seek E p v)) /\
  (forall ps, closed_blind (seek_to_committed K ps)).
Proof.
  repeat split.
  - intros fuel ps. apply blind_getone_loop.
  - intros fuel ps timeout_ms. unfold getmany, time.
    apply blind_mbind; [apply blind_gets; reflexivity|]. intros s.
    apply blind_mbind.
    + destruct (has_all_fetch_positions s);
        [apply blind_ret | apply blind_update_fetch_positions].
    + intros _. apply blind_mbind; [apply blind_gets; reflexivity|].
      intros t0. apply blind_getmany_loop.
  - intros offsets. unfold commit. blind.
  - apply blind_committed.
  - intros p. unfold position.
    apply blind_mbind; [apply blind_gets; reflexivity|]. intros s.
    apply blind_mbind; [apply blind_assert|]. intros _.
    apply blind_mbind; [apply blind_assignment_at|]. intros st.
    destruct (TopicPartitionState.position st); [apply blind_ret|].
    apply blind_mbind; [apply blind_update_fetch_positions|]. intros _.
    blind.
  - apply blind_seek.
  - intros ps. unfold seek_to_committed.
    apply blind_mbind; [apply blind_gets; reflexivity|]. intros s.
    apply blind_mbind.
    + destruct ps as [|p ps].
      * blind.
      * apply blind_mbind; [|intros _; apply blind_ret].
        apply blind_for_each. intros x. blind.
    + intros ps'. apply blind_for_each. intros tp.
      unfold seek_to_committed_step.
      apply blind_mbind; [apply blind_committed|]. intros off.
      destruct off as [k|]; [|apply blind_ret].
      destruct (0 <? k); [apply blind_seek | apply blind_ret].
Qed.

Lemma returns_suffix_bind {A B} (ev : Event) (m : @M E A) (k : A -> @M E B)
    (w : World E) :
  (forall a w1 b, outcome (k a w1) = Returns b ->
                  exists pre, events (k a w1) = pre ++ [ev]) ->
  forall b, outcome (@mbind (@M E) (@M_bind E) A B k m w) = Returns b ->
            exists pre, events (@mbind (@M E) (@M_bind E) A B k m w) = pre ++ [ev].
Proof.
  intros Hk b. unfold mbind, M_bind, bind, outcome, events.
  destruct (m w) as [[[a|x|] w1] evs1]; cbn; try discriminate.
  specialize (Hk a w1). unfold outcome, events in Hk.
  destruct (k a w1) as [[r w2] evs2]. cbn in *. intros Hr.
  destruct (Hk b Hr) as [pre ->]. exists (evs1 ++ pre).
  rewrite app_assoc. reflexivity.
Qed.

(** X12. [getone] returns only straight after the fetcher handed it a
    record: whenever it returns, the last collaborator call of the run is
    [next_record] on the caller's partitions, with no sleep after it. *)
Theorem getone_returns_after_hit
    (fuel : nat) (ps : list TopicPartition) (w : World E) (m : ConsumerRecord) :
  outcome (getone K fuel ps w) = Returns m ->
  exists pre, events (getone K fuel ps w) = pre ++ [FetcherNextRecord ps].
Proof.
  unfold getone. revert w m. induction fuel as [|fuel IH]; intros w m.
  - discriminate.
  - cbn [getone_loop]. apply returns_suffix_bind. clear w m. intros _ w m.
    apply returns_suffix_bind. clear w m. intros s w m.
    apply returns_suffix_bind. clear w m. intros _ w m.
    unfold mbind at 1 3, M_bind at 1 3, bind, call_fetcher, call_shared,
      outcome, events.
    destruct (_fetcher w); [|discriminate].
    destruct (fetcher_next_record K ps _ _) as [[[[r|]|x] s1] e1]; cbn;
      try discriminate.
    + intros _. exists []. reflexivity.
    + pose proof (returns_suffix_bind (FetcherNextRecord ps) (sleep K)
                    (fun _ => getone_loop K fuel ps)
                    (set_env e1 (set_subscription s1 w))
                    (fun _ w1 b => IH w1 b) m) as Hrest.
      unfold outcome, events in Hrest.
      destruct (@mbind (@M E) (@M_bind E) _ _ _ (sleep K) _) as [[r w2] evs2].
      cbn in *. intros Hr. destruct (Hrest Hr) as [pre ->].
      exists (FetcherNextRecord ps :: pre). reflexivity.
Qed.

Lemma has_all_of_empty (s : SubscriptionState) :
  assigned_partitions s = ∅ -> has_all_fetch_positions s = true.
Proof.
  unfold assigned_partitions, has_all_fetch_positions. intros Hdom.
  apply dom_empty_inv_L in Hdom. rewrite Hdom.
  apply bool_decide_eq_true. apply map_Forall_empty.
Qed.

(** X13. [getone] has no deadline. As long as the fetcher has nothing to
    hand out and the subscription stays as it is, each iteration asks the
    fetcher once and sleeps once, and no bound on the iterations makes the
    call return. *)
Theorem getone_never_times_out
    (ps : list TopicPartition) (w : World E) (f : Fetcher) :
  (forall s e, exists e1, fetcher_next_record K ps s e = (Ok None, s, e1)) ->
  (forall s e, exists e1,
      loop_sleep K (_consumer_timeout w) s e = (Ok tt, s, e1)) ->
  _fetcher w = Some f ->
  assigned_partitions (_subscription w) <> ∅ ->
  has_all_fetch_positions (_subscription w) = true ->
  forall fuel,
    outcome (getone K fuel ps w) = OutOfFuel /\
    events (getone K fuel ps w) =
      concat (replicate fuel [FetcherNextRecord ps;
                              LoopSleep (_consumer_timeout w)]).
Proof.
  intros Hnext Hsleep Hf Hne Hall fuel. unfold getone.
  assert (Hloop : forall n w0,
    _consumer_timeout w0 = _consumer_timeout w ->
    _subscription w0 = _subscription w ->
    _fetcher w0 = Some f ->
    outcome (getone_loop K n ps w0) = OutOfFuel /\
    events (getone_loop K n ps w0) =
      concat (replicate n [FetcherNextRecord ps;
                           LoopSleep (_consumer_timeout w)])).
  { induction n as [|n IH]; intros w0 Hd Hs Hf0.
    - split; reflexivity.
    - cbn [getone_loop wait_for_assignment replicate concat].
      unfold outcome, events. run. rewrite Hs.
      rewrite (bool_decide_eq_false_2 _ Hne). cbn. rewrite Hs, Hall. cbn.
      rewrite Hf0. cbn. rewrite Hs.
      destruct (Hnext (_subscription w) (env w0)) as [e1 Hn]. rewrite Hn. cbn.
      rewrite Hd.
      destruct (Hsleep (_subscription w) e1) as [e2 Hsl]. rewrite Hsl. cbn.
      specialize (IH (set_env e2 (set_subscription (_subscription w)
                        (set_env e1 (set_subscription (_subscription w) w0))))
                     Hd eq_refl Hf0).
      unfold outcome, events in IH.
      destruct (getone_loop K n ps _) as [[r w2] evs2]. cbn in *.
      destruct IH as [-> ->]. split; reflexivity. }
  apply Hloop; reflexivity || exact Hf.
Qed.

(** X14. [getmany] hands out what is buffered at once: when the first
    buffer query returns a non-empty dict, that dict is the result, whatever
    the timeout, and the call makes no other call and never sleeps. *)
Theorem getmany_returns_buffered
    (fuel : nat) (ps : list TopicPartition) (timeout_ms : Z) (w : World E)
    (f : Fetcher) (records : gmap TopicPartition (list ConsumerRecord))
    (s1 : SubscriptionState) (e1 : E) :
  _fetcher w = Some f ->
  has_all_fetch_positions (_subscription w) = true ->
  fetcher_fetched_records K ps (_subscription w) (env w) = (Ok records, s1, e1) ->
  records <> ∅ ->
  getmany K (S fuel) ps timeout_ms w =
    (Returns records, set_env e1 (set_subscription s1 w),
     [FetcherFetchedRecords ps]).
Proof.
  intros Hf Hall Hrec Hne. unfold getmany. run. rewrite Hall. run.
  rewrite Hf. cbn. rewrite Hrec. cbn.
  rewrite (bool_decide_eq_false_2 _ Hne). reflexivity.
Qed.

(** X15. A failure of position resolution is not retried: when the
    resolution [getmany] or [getone] starts with raises, the call raises the
    same exception at once, having made the calls of the resolution and no
    other, in particular no buffer query and no sleep. *)
Theorem resolution_failure_propagates
    (ps : list TopicPartition) (w w1 : World E) (x : Exn) (evs : list Event) :
  has_all_fetch_positions (_subscription w) = false ->
  _update_fetch_positions K
    (PartitionSet (missing_fetch_positions (_subscription w))) w
    = (Raises x, w1, evs) ->
  (forall fuel timeout_ms,
     getmany K fuel ps timeout_ms w = (Raises x, w1, evs)) /\
  (assigned_partitions (_subscription w) <> ∅ ->
   forall fuel, getone K (S fuel) ps w = (Raises x, w1, evs)).
Proof.
  intros Hall Hupd. split.
  - intros fuel timeout_ms. unfold getmany. run. rewrite Hall, Hupd.
    reflexivity.
  - intros Hne fuel. unfold getone. cbn [getone_loop wait_for_assignment].
    run. rewrite (bool_decide_eq_false_2 _ Hne). cbn. rewrite Hall, Hupd.
    reflexivity.
Qed.

Lemma events_call_fetcher {A} (ev : Event) (op : SharedOp E A) (w : World E)
    (f : Fetcher) :
  _fetcher w = Some f -> events (call_fetcher ev op w) = [ev].
Proof.
  intros Hf. unfold events, call_fetcher, call_shared. rewrite Hf.
  destruct (op _ _) as [[r s1] e1]. reflexivity.
Qed.

Lemma events_sleep (w : World E) :
  events (sleep K w) = [LoopSleep (_consumer_timeout w)].
Proof.
  unfold events, sleep, call_shared.
  destruct (loop_sleep K _ _ _) as [[r s1] e1]. reflexivity.
Qed.

(** X16. Only [getone] waits for an assignment. With nothing assigned,
    [getmany] goes straight to the fetcher's buffer, while [getone] sleeps
    first; and as long as the sleeps leave the assignment empty, [getone]
    does nothing but sleep, once per iteration, without ever calling the
    fetcher or the coordinator. *)
Theorem only_getone_waits_for_assignment
    (ps : list TopicPartition) (w : World E) (f : Fetcher) :
  assigned_partitions (_subscription w) = ∅ ->
  _fetcher w = Some f ->
  (forall fuel timeout_ms, exists rest,
     events (getmany K (S fuel) ps timeout_ms w)
       = FetcherFetchedRecords ps :: rest) /\
  (forall fuel, exists rest,
     events (getone K (S fuel) ps w)
       = LoopSleep (_consumer_timeout w) :: rest) /\
  ((forall s e, assigned_partitions s = ∅ ->
      exists s1 e1, loop_sleep K (_consumer_timeout w) s e = (Ok tt, s1, e1) /\
                    assigned_partitions s1 = ∅) ->
   forall fuel,
     outcome (getone K (S fuel) ps w) = OutOfFuel /\
     events (getone K (S fuel) ps w)
       = replicate (S fuel) (LoopSleep (_consumer_timeout w))).
Proof.
  intros Hempty Hf. split; [|split].
  - intros fuel timeout_ms. unfold getmany, time.
    rewrite events_mbind. cbn [gets events outcome world_after fst snd app].
    rewrite (has_all_of_empty _ Hempty).
    rewrite events_mbind. cbn [ret events outcome world_after fst snd app].
    rewrite events_mbind. cbn [gets events outcome world_after fst snd app].
    cbn [getmany_loop]. rewrite events_mbind.
    rewrite (events_call_fetcher _ _ w f Hf). eexists. reflexivity.
  - intros fuel. unfold getone. cbn [getone_loop wait_for_assignment].
    rewrite events_mbind, events_mbind.
    cbn [gets events outcome world_after fst snd app].
    rewrite (bool_decide_eq_true_2 _ Hempty).
    rewrite events_mbind, events_sleep. eexists. reflexivity.
  - intros Hsleep fuel.
    assert (Hwait : forall n w0,
      assigned_partitions (_subscription w0) = ∅ ->
      _consumer_timeout w0 = _consumer_timeout w ->
      exists w1, wait_for_assignment K n w0 =
        (OutOfFuel, w1, replicate n (LoopSleep (_consumer_timeout w)))).
    { induction n as [|n IH]; intros w0 He Hd.
      - eexists. reflexivity.
      - cbn [wait_for_assignment replicate]. run.
        rewrite (bool_decide_eq_true_2 _ He). cbn. rewrite Hd.
        destruct (Hsleep _ (env w0) He) as (s1 & e1 & Hsl & He1).
        rewrite Hsl. cbn.
        destruct (IH (set_env e1 (set_subscription s1 w0)) He1 Hd)
          as [w1 Hw1].
        rewrite Hw1. eexists. reflexivity. }
    destruct (Hwait (S fuel) w Hempty eq_refl) as [w1 Hw1].
    assert (Hrun : getone K (S fuel) ps w =
      (OutOfFuel, w1, replicate (S fuel) (LoopSleep (_consumer_timeout w)))).
    { unfold getone. cbn [getone_loop].
      unfold mbind at 1, M_bind at 1, bind at 1. rewrite Hw1. reflexivity. }
    rewrite Hrun. split; reflexivity.
Qed.

Lemma for_each_fails {A} (xs : list A) (body : A -> @M E unit) (w : World E)
    (x : A) (e : Exn) :
  x ∈ xs -> body x w = (Raises e, w, []) ->
  (forall y, y ∈ xs ->
     body y w = (Returns tt, w, []) \/ body y w = (Raises e, w, [])) ->
  for_each xs body w = (Raises e, w, []).
Proof.
  intros Hin Hx Hall. induction xs as [|y xs IH]; [inversion Hin|].
  cbn [for_each]. unfold mbind, M_bind, bind.
  destruct (Hall y (list_elem_of_here _ _)) as [Hy|Hy]; rewrite Hy;
    [|reflexivity].
  apply elem_of_cons in Hin as [->|Hin]; [congruence|].
  rewrite IH; [reflexivity|exact Hin|].
  intros z Hz. apply Hall. apply list_elem_of_further. exact Hz.
Qed.

Lemma check_fails (ps : list TopicPartition) (p : TopicPartition) (w : World E) :
  p ∈ ps -> assignment (_subscription w) !! p = None ->
  for_each ps (fun p =>
    @mbind (@M E) (@M_bind E) _ _
      (fun s => py_assert (bool_decide (p ∈ assigned_partitions s))
                          "Unassigned partition")
      (gets _subscription)) w
  = (Raises (AssertionError "Unassigned partition"), w, []).
Proof.
  intros Hin Hnone. apply (for_each_fails _ _ _ p); [exact Hin| |].
  - run. rewrite bool_decide_eq_false_2; [reflexivity|].
    unfold assigned_partitions. rewrite elem_of_dom, Hnone.
    intros [? ?]. discriminate.
  - intros y _. run. destruct (bool_decide _); [left|right]; reflexivity.
Qed.

(** X18. [seek_to_committed] checks all its arguments before it acts: if
    any of the partitions passed is not assigned, wherever it stands in the
    list, the call fails its assertion with no collaborator called and no
    position changed. *)
Theorem seek_to_committed_checks_first
    (ps : list TopicPartition) (p : TopicPartition) (w : World E) :
  p ∈ ps -> assignment (_subscription w) !! p = None ->
  seek_to_committed K ps w =
    (Raises (AssertionError "Unassigned partition"), w, []).
Proof.
  intros Hin Hnone. unfold seek_to_committed.
  destruct ps as [|x ps]; [inversion Hin|].
  unfold mbind at 1, M_bind at 1, bind at 1. cbn [gets].
  unfold mbind at 1, M_bind at 1, bind at 1.
  unfold mbind at 1, M_bind at 1, bind at 1.
  rewrite (check_fails (x :: ps) p w Hin Hnone). reflexivity.
Qed.

Lemma committed_requires_group (p : TopicPartition) (w : World E) :
  _group_id w = None ->
  committed K p w = (Raises (AssertionError "Requires group_id"), w, []).
Proof. intros Hg. unfold committed. run. rewrite Hg. reflexivity. Qed.

(** X19. Committed offsets need a group id even when they are cached:
    without one [committed] fails its assertion on every partition, and so
    does [seek_to_committed], on the assigned partitions passed to it or,
    given none, on a non-empty assignment; no collaborator is called and no
    position is changed. *)
Theorem committed_offsets_require_group (w : World E) :
  _group_id w = None ->
  (forall p,
     committed K p w = (Raises (AssertionError "Requires group_id"), w, [])) /\
  (forall ps, ps <> [] ->
     Forall (fun p => is_Some (assignment (_subscription w) !! p)) ps ->
     seek_to_committed K ps w =
       (Raises (AssertionError "Requires group_id"), w, [])) /\
  (assigned_partitions (_subscription w) <> ∅ ->
   seek_to_committed K [] w =
     (Raises (AssertionError "Requires group_id"), w, [])).
Proof.
  intros Hg.
  assert (Hloop : forall ps, ps <> [] ->
    for_each ps (seek_to_committed_step K) w =
      (Raises (AssertionError "Requires group_id"), w, [])).
  { intros [|x ps] Hne; [congruence|]. cbn [for_each].
    unfold seek_to_committed_step, mbind, M_bind, bind.
    rewrite (committed_requires_group x w Hg). reflexivity. }
  split; [|split].
  - intros p. apply committed_requires_group, Hg.
  - intros ps Hne Hall. unfold seek_to_committed.
    destruct ps as [|x ps]; [congruence|].
    unfold mbind at 1, M_bind at 1, bind at 1. cbn [gets].
    unfold mbind at 1, M_bind at 1, bind at 1.
    unfold mbind at 1, M_bind at 1, bind at 1.
    rewrite (check_all_assigned (x :: ps) w Hall). cbn [ret].
    rewrite (Hloop (x :: ps) Hne). reflexivity.
  - intros Hne. unfold seek_to_committed. run.
    rewrite (bool_decide_eq_false_2 _ Hne). cbn.
    rewrite Hloop; [reflexivity|].
    intros Hnil. apply Hne. apply elements_empty_inv in Hnil.
    apply leibniz_equiv. exact Hnil.
Qed.

Lemma resume_keeps_committed (st : PartitionState) :
  TopicPartitionState.committed (resume_from_committed st)
  = TopicPartitionState.committed st.
Proof.
  unfold resume_from_committed.
  destruct (TopicPartitionState.committed st) as [k|] eqn:Hk; [|exact Hk].
  destruct (0 <? k); [cbn|]; exact Hk.
Qed.

Lemma resume_idempotent (st : PartitionState) :
  resume_from_committed (resume_from_committed st) = resume_from_committed st.
Proof.
  unfold resume_from_committed at 1. rewrite resume_keeps_committed.
  unfold resume_from_committed.
  destruct (TopicPartitionState.committed st) as [k|]; [|reflexivity].
  destruct (0 <? k); reflexivity.
Qed.

Lemma same_assignment (w : World E) :
  set_subscription
    (with_assignment (assignment (_subscription w)) (_subscription w)) w = w.
Proof. destruct w as [? ? ? [] ? ? ? ? ?]. reflexivity. Qed.

Lemma step_cached (p : TopicPartition) (w : World E) (g : string)
    (st : PartitionState) (k : Z) :
  _group_id w = Some g ->
  assignment (_subscription w) !! p = Some st ->
  TopicPartitionState.committed st = Some k ->
  seek_to_committed_step K p w =
    (Returns tt,
     set_subscription
       (with_assignment
          (<[p := resume_from_committed st]> (assignment (_subscription w)))
          (_subscription w)) w,
     []).
Proof.
  intros Hg Hst Hk. unfold seek_to_committed_step, mbind, M_bind, bind.
  rewrite (committed_cached K p w g st k Hg Hst Hk).
  unfold resume_from_committed. rewrite Hk.
  destruct (Z.ltb_spec 0 k) as [Hpos|Hneg].
  - rewrite (seek_accepts p k st w) by (lia || exact Hst). reflexivity.
  - cbn [ret app]. rewrite (insert_id _ _ _ Hst), same_assignment.
    reflexivity.
Qed.

Lemma loop_cached (g : string) (ps : list TopicPartition) :
  forall w : World E,
    _group_id w = Some g ->
    (forall p, p ∈ ps -> exists st k,
        assignment (_subscription w) !! p = Some st /\
        TopicPartitionState.committed st = Some k) ->
    exists a1,
      for_each ps (seek_to_committed_step K) w =
        (Returns tt,
         set_subscription (with_assignment a1 (_subscription w)) w, []) /\
      forall q,
        a1 !! q =
        (if decide (q ∈ ps) then resume_from_committed else id)
          <$> assignment (_subscription w) !! q.
Proof.
  induction ps as [|x xs IH]; intros w Hg Hcached.
  - exists (assignment (_subscription w)). split.
    + cbn. rewrite same_assignment. reflexivity.
    + intros q. destruct (decide (q ∈ [])) as [Hin|_]; [inversion Hin|].
      destruct (assignment (_subscription w) !! q); reflexivity.
  - destruct (Hcached x (list_elem_of_here _ _)) as (st & k & Hst & Hk).
    set (w1 := set_subscription
                 (with_assignment
                    (<[x := resume_from_committed st]>
                       (assignment (_subscription w)))
                    (_subscription w)) w).
    destruct (IH w1 Hg) as (a2 & Hloop & Hlook).
    { intros p Hp. cbn.
      destruct (decide (p = x)) as [->|Hne].
      - rewrite lookup_insert_eq. exists (resume_from_committed st), k.
        split; [reflexivity|]. rewrite resume_keeps_committed. exact Hk.
      - rewrite lookup_insert_ne by congruence.
        apply Hcached. apply list_elem_of_further. exact Hp. }
    exists a2. split.
    + cbn [for_each]. unfold mbind, M_bind, bind.
      rewrite (step_cached x w g st k Hg Hst Hk). fold w1.
      rewrite Hloop. reflexivity.
    + intros q. rewrite Hlook.
      change (assignment (_subscription w1))
        with (<[x := resume_from_committed st]> (assignment (_subscription w))).
      destruct (decide (q = x)) as [->|Hne].
      * rewrite lookup_insert_eq, Hst.
        rewrite (decide_True (P := x ∈ x :: xs)) by apply list_elem_of_here.
        destruct (decide (x ∈ xs)); cbn;
          [rewrite resume_idempotent|]; reflexivity.
      * rewrite lookup_insert_ne by congruence.
        destruct (decide (q ∈ xs)) as [Hin|Hin].
        -- rewrite decide_True by (apply list_elem_of_further; exact Hin).
           reflexivity.
        -- rewrite decide_False; [reflexivity|].
           intros Hin'. apply elem_of_cons in Hin' as [?|?]; contradiction.
Qed.

Lemma seek_to_committed_loop (ps : list TopicPartition) (w : World E) :
  ps <> [] ->
  Forall (fun p => is_Some (assignment (_subscription w) !! p)) ps ->
  seek_to_committed K ps w = for_each ps (seek_to_committed_step K) w.
Proof.
  intros Hne Hall. unfold seek_to_committed.
  destruct ps as [|p ps]; [congruence|].
  unfold mbind at 1, M_bind at 1, bind at 1. cbn [gets].
  unfold mbind at 1, M_bind at 1, bind at 1.
  unfold mbind at 1, M_bind at 1, bind at 1.
  rewrite (check_all_assigned (p :: ps) w Hall). cbn [ret app].
  destruct (for_each _ _ w) as [[r w2] evs2]. reflexivity.
Qed.

(** X20. When the committed offset of every partition passed is already
    cached, [seek_to_committed] is a purely local operation: it returns
    without any collaborator call, each of those partitions ends at its
    committed offset if that is positive and where it was otherwise, the
    other partitions and the committed offsets themselves are untouched,
    and nothing but the assignment changes. *)
Theorem seek_to_committed_cached
    (ps : list TopicPartition) (w : World E) (g : string) :
  _group_id w = Some g -> ps <> [] ->
  (forall p, p ∈ ps -> exists st k,
      assignment (_subscription w) !! p = Some st /\
      TopicPartitionState.committed st = Some k) ->
  exists a1,
    seek_to_committed K ps w =
      (Returns tt, set_subscription (with_assignment a1 (_subscription w)) w,
       []) /\
    forall q,
      a1 !! q =
      (if decide (q ∈ ps) then resume_from_committed else id)
        <$> assignment (_subscription w) !! q.
Proof.
  intros Hg Hne Hcached.
  destruct (loop_cached g ps w Hg Hcached) as (a1 & Hloop & Hlook).
  exists a1. split; [|exact Hlook].
  rewrite seek_to_committed_loop; [exact Hloop|exact Hne|].
  apply Forall_forall. intros p Hp.
  destruct (Hcached p Hp) as (st & _ & Hst & _). eauto.
Qed.

(** X21. [assign] changes the subscription before it tells the client. In
    a group mode it raises [IllegalStateError] and calls nobody. Otherwise
    it makes the single call [set_topics] with one topic per partition
    passed, and whatever that call answers, the assignment has by then been
    replaced: exactly the partitions passed are assigned. *)
Theorem assign_replaces_assignment (ps : list TopicPartition) (w : World E) :
  (mode (_subscription w) = AUTO_TOPICS \/
   mode (_subscription w) = AUTO_PATTERN ->
   assign K ps w = (Raises IllegalStateError, w, []))
  /\
  (mode (_subscription w) = UNSUBSCRIBED \/
   mode (_subscription w) = USER_ASSIGNED ->
   let w1 := world_after (assign K ps w) in
   events (assign K ps w) = [ClientSetTopics (topic <$> ps)] /\
   outcome (assign K ps w)
     = of_result (fst (client_set_topics K (topic <$> ps) (env w))) /\
   mode (_subscription w1) = USER_ASSIGNED /\
   forall p, p ∈ assigned_partitions (_subscription w1) <-> p ∈ ps).
Proof.
  assert (Hdom : forall p,
    p ∈ dom (list_to_map ((fun tp => (tp, TopicPartitionState.fresh)) <$> ps)
               : gmap TopicPartition PartitionState) <-> p ∈ ps).
  { intros p. rewrite dom_list_to_map_L, elem_of_list_to_set.
    rewrite <- list_fmap_compose, list_elem_of_fmap. split.
    - intros (q & -> & Hq). exact Hq.
    - intros Hp. exists p. split; [reflexivity|exact Hp]. }
  split.
  - intros Hmode. unfold assign, subscription_assign_from_user. run.
    unfold sub_assign_from_user. destruct Hmode as [-> | ->]; reflexivity.
  - intros Hmode. cbv zeta.
    unfold events, outcome, world_after, assign, subscription_assign_from_user.
    run. unfold sub_assign_from_user.
    destruct (client_set_topics K (topic <$> ps) (env w)) as [r e1] eqn:Hc.
    destruct Hmode as [-> | ->]; cbn; rewrite Hc; cbn;
      (repeat split; try apply Hdom).
Qed.

(** X22. [unsubscribe] drops the assignment before it tells the client: it
    makes the single call [set_topics([])], and whatever that call answers
    nothing is assigned afterwards, so a [seek] on any partition then fails
    its assertion. *)
Theorem unsubscribe_clears_assignment (w : World E) :
  let w1 := world_after (unsubscribe K w) in
  events (unsubscribe K w) = [ClientSetTopics []] /\
  outcome (unsubscribe K w) = of_result (fst (client_set_topics K [] (env w))) /\
  assigned_partitions (_subscription w1) = ∅ /\
  mode (_subscription w1) = UNSUBSCRIBED /\
  forall p v, exists msg, seek p v w1 = (Raises (AssertionError msg), w1, []).
Proof.
  cbv zeta. unfold events, outcome, world_after, unsubscribe. run.
  destruct (client_set_topics K [] (env w)) as [r e1]. cbn.
  split; [reflexivity|]. split; [reflexivity|]. split.
  { unfold assigned_partitions. cbn. apply dom_empty_L. }
  split; [reflexivity|].
  intros p v. unfold seek. run.
  destruct (isinstance_int v && py_ge0 v); cbn; [|eexists; reflexivity].
  rewrite bool_decide_eq_false_2; [eexists; reflexivity|].
  unfold assigned_partitions. cbn. rewrite dom_empty_L. apply not_elem_of_empty.
Qed.

(** X23. A commit without explicit offsets that follows a [seek] commits
    the offset sought: after [seek(p, k)], [commit()] hands the coordinator
    a dict in which [p] stands at offset [k] and every other partition
    stands where the snapshot taken before the seek had it. *)
Theorem seek_then_commit
    (p : TopicPartition) (k : Z) (w : World E) (g : string)
    (c : GroupCoordinator) :
  0 <= k -> is_Some (assignment (_subscription w) !! p) ->
  _group_id w = Some g -> _coordinator w = Some c ->
  exists offsets,
    events (commit K None (world_after (seek p (PyInt k) w)))
      = [CoordinatorCommitOffsets offsets] /\
    offsets !! p = Some (mkOM k EmptyString) /\
    forall q, q <> p ->
      offsets !! q = all_consumed_offsets (_subscription w) !! q.
Proof.
  intros Hk [st Hst] Hg Hco. rewrite (seek_accepts p k st w Hk Hst).
  cbn [world_after fst snd].
  eexists. split; [|split].
  - unfold events, commit. run. rewrite Hg. cbn. rewrite Hco. cbn.
    destruct (coordinator_commit_offsets K _ _ _) as [[r s1] e1]. reflexivity.
  - unfold all_consumed_offsets. cbn. rewrite lookup_omap, lookup_insert_eq.
    reflexivity.
  - intros q Hq. unfold all_consumed_offsets. cbn.
    rewrite !lookup_omap, lookup_insert_ne by congruence. reflexivity.
Qed.

End MoreProperties.

(* ===================================================================== *)
(** ** The further properties on the scripted cluster                     *)
(* ===================================================================== *)

Lemma local_reads_witness :
  let w := started_world quiet_cluster resolved in
  highwater tp0 w = (Returns None, w, []) /\
  position scripted tp0 w = (Returns (Some 5), w, []) /\
  position scripted tp1 w =
    (Raises (AssertionError "Partition is not assigned"), w, []).
Proof.
  cbv zeta.
  destruct (local_reads scripted tp0 (started_world quiet_cluster resolved))
    as [_ Hassigned].
  destruct (local_reads scripted tp1 (started_world quiet_cluster resolved))
    as [Hnot _].
  destruct (Hassigned resolved eq_refl) as [Hhw Hpos].
  split; [exact Hhw|]. split; [exact (Hpos 5 eq_refl)|].
  exact (proj2 (Hnot eq_refl)).
Defined.

Lemma seek_then_position_witness :
  let w := started_world quiet_cluster unresolved in
  0 <= 7 /\ is_Some (assignment (_subscription w) !! tp0) /\
  position scripted tp0 (world_after (seek tp0 (PyInt 7) w))
    = (Returns (Some 7), world_after (seek tp0 (PyInt 7) w), []).
Proof.
  cbv zeta.
  assert (H0 : 0 <= 7) by lia.
  assert (H1 : is_Some (assignment
                (_subscription (started_world quiet_cluster unresolved)) !! tp0))
    by (eexists; reflexivity).
  split; [exact H0|]. split; [exact H1|].
  exact (proj2 (seek_then_position scripted tp0 7
                  (started_world quiet_cluster unresolved) H0 H1)).
Defined.

Lemma seek_last_wins_witness :
  let w := two_partition_world in
  0 <= 3 /\ 0 <= 9 /\
  is_Some (assignment (_subscription w) !! tp0) /\
  is_Some (assignment (_subscription w) !! tp1) /\
  world_after (seek tp0 (PyInt 9) (world_after (seek tp0 (PyInt 3) w)))
    = world_after (seek tp0 (PyInt 9) w) /\
  world_after (seek tp1 (PyInt 9) (world_after (seek tp0 (PyInt 3) w)))
    = world_after (seek tp0 (PyInt 3) (world_after (seek tp1 (PyInt 9) w))).
Proof.
  cbv zeta.
  assert (H3 : 0 <= 3) by lia.
  assert (H9 : 0 <= 9) by lia.
  assert (H0 : is_Some (assignment (_subscription two_partition_world) !! tp0))
    by (eexists; reflexivity).
  assert (H1 : is_Some (assignment (_subscription two_partition_world) !! tp1))
    by (eexists; reflexivity).
  destruct (seek_last_wins (E := Cluster) tp0 tp1 3 9 two_partition_world
              H3 H9 H0 H1) as [Hsame Hother].
  repeat (split; [assumption|]).
  apply Hother. discriminate.
Defined.

Lemma lookup_after_remote_call_witness :
  let w := groupless_world quiet_cluster unresolved in
  assignment (_subscription w) !! tp0 = Some unresolved /\
  outcome (position rebalancing tp0 w) = Raises KeyError /\
  outcome (position scripted tp0 w) = Returns (Some 42).
Proof.
  cbv zeta.
  assert (Hst : assignment
                  (_subscription (groupless_world quiet_cluster unresolved))
                  !! tp0 = Some unresolved) by reflexivity.
  split; [exact Hst|]. split.
  - rewrite (proj1 (lookup_after_remote_call rebalancing tp0 _ _ unresolved _ Hst)
               eq_refl eq_refl).
    reflexivity.
  - rewrite (proj1 (lookup_after_remote_call scripted tp0 _ _ unresolved _ Hst)
               eq_refl eq_refl).
    reflexivity.
Defined.

Lemma start_returns_started_witness :
  let w := initial_world auto_config quiet_cluster in
  outcome (start scripted w) = Returns tt /\
  _fetcher (world_after (start scripted w)) = Some FetcherObj /\
  _coordinator (world_after (start scripted w)) = Some GroupCoordinatorObj.
Proof.
  cbv zeta.
  assert (Hret : outcome (start scripted (initial_world auto_config quiet_cluster))
                 = Returns tt) by reflexivity.
  split; [exact Hret|].
  destruct (start_returns_started scripted _ Hret) as (Hf & Hc & _).
  split; [exact Hf | exact Hc].
Defined.

Lemma start_twice_fails_witness :
  let w := initial_world auto_config quiet_cluster in
  let w1 := world_after (start scripted w) in
  outcome (start scripted w) = Returns tt /\
  client_bootstrap scripted (env w1) = (Ok tt, quiet_cluster) /\
  start scripted w1 = (Raises AttributeError, set_env quiet_cluster w1,
                       [ClientBootstrap]).
Proof.
  cbv zeta.
  assert (Hret : outcome (start scripted (initial_world auto_config quiet_cluster))
                 = Returns tt) by reflexivity.
  split; [exact Hret|]. split; [reflexivity|].
  exact (start_twice_fails scripted _ quiet_cluster Hret eq_refl).
Defined.

Lemma start_joins_group_witness :
  let w := initial_world group_config quiet_cluster in
  client_bootstrap scripted (env w) = (Ok tt, quiet_cluster) /\
  is_auto (_api_version w) = true /\
  client_check_version scripted quiet_cluster = (Ok "0.9", quiet_cluster) /\
  parse_api_version "0.9" = Some [0; 9] /\
  tuple_lt [0; 9] [0; 9] = false /\
  _group_id w = Some "g" /\
  outcome (start scripted w) = Returns tt /\
  events (start scripted w) =
    [ClientBootstrap; ClientCheckVersion; FetcherInit; CoordinatorInit;
     CoordinatorEnsureActiveGroup].
Proof.
  cbv zeta. do 6 (split; [reflexivity|]).
  destruct (start_joins_group scripted
              (initial_world group_config quiet_cluster)
              quiet_cluster quiet_cluster "0.9" "g" [0; 9] eq_refl
              (or_introl (conj eq_refl eq_refl)) eq_refl eq_refl eq_refl)
    as (Hout & _ & Hev).
  split; [exact Hout | exact Hev].
Defined.

Lemma start_assigns_all_partitions_witness :
  let w := topic_world in
  client_bootstrap scripted (env w) = (Ok tt, quiet_cluster) /\
  is_auto (_api_version w) = true /\
  client_check_version scripted quiet_cluster = (Ok "0.9", quiet_cluster) /\
  parse_api_version "0.9" = Some [0; 9] /\
  tuple_lt [0; 9] [0; 9] = false /\
  _group_id w = None /\
  needs_partition_assignment (_subscription w) = true /\
  client_force_metadata_update scripted quiet_cluster = (Ok tt, quiet_cluster) /\
  outcome (start scripted w) = Returns tt /\
  tp0 ∈ assigned_partitions (_subscription (world_after (start scripted w))).
Proof.
  cbv zeta. do 8 (split; [reflexivity|]).
  destruct (start_assigns_all_partitions scripted topic_world
              quiet_cluster quiet_cluster quiet_cluster "0.9" [0; 9] eq_refl
              (or_introl (conj eq_refl eq_refl)) eq_refl eq_refl eq_refl
              eq_refl eq_refl)
    as (_ & Hknown & _).
  destruct Hknown as (Hout & _ & Hassigned).
  { intros t _. eexists. reflexivity. }
  split; [exact Hout|].
  apply Hassigned. split.
  - apply list_elem_of_here.
  - exists [0]. split; [reflexivity | apply list_elem_of_here].
Defined.

Lemma stop_unstarted_witness :
  init scripted auto_config quiet_cluster =
    (Returns (initial_world auto_config quiet_cluster), quiet_cluster, []) /\
  events (stop scripted (initial_world auto_config quiet_cluster))
    = [ClientClose].
Proof.
  assert (Hinit : init scripted auto_config quiet_cluster =
            (Returns (initial_world auto_config quiet_cluster), quiet_cluster, []))
    by reflexivity.
  split; [exact Hinit|].
  destruct (stop_unstarted scripted _ _ _ _ _ Hinit) as (_ & _ & _ & _ & _ & H & _).
  exact H.
Defined.

Lemma unstarted_methods_fail_witness :
  let w := initial_world group_config quiet_cluster in
  _fetcher w = None /\ _coordinator w = None /\
  commit scripted None w = (Raises AttributeError, w, []) /\
  getmany scripted 1 [] 0 w = (Raises AttributeError, w, []).
Proof.
  cbv zeta. split; [reflexivity|]. split; [reflexivity|].
  destruct (unstarted_methods_fail scripted
              (initial_world group_config quiet_cluster) eq_refl eq_refl)
    as (Hcommit & _ & _ & Hmany & _).
  split; [exact (Hcommit "g" None eq_refl) | exact (Hmany 0%nat [] 0)].
Defined.

Lemma getone_returns_after_hit_witness :
  let w := started_world quiet_cluster resolved in
  outcome (getone serving 1 [tp0] w) = Returns record0 /\
  exists pre, events (getone serving 1 [tp0] w)
              = pre ++ [FetcherNextRecord [tp0]].
Proof.
  cbv zeta.
  assert (Hret : outcome (getone serving 1 [tp0]
                            (started_world quiet_cluster resolved))
                 = Returns record0) by reflexivity.
  split; [exact Hret|].
  exact (getone_returns_after_hit serving 1 [tp0]
           (started_world quiet_cluster resolved) record0 Hret).
Defined.

Lemma scripted_next_record (ps : list TopicPartition) (s : SubscriptionState)
    (c : Cluster) :
  exists c1, fetcher_next_record scripted ps s c = (Ok None, s, c1).
Proof. eexists. reflexivity. Defined.

Lemma scripted_sleep (d : Q) (s : SubscriptionState) (c : Cluster) :
  exists c1, loop_sleep scripted d s c = (Ok tt, s, c1).
Proof. eexists. reflexivity. Defined.

Lemma getone_never_times_out_witness :
  let w := started_world quiet_cluster resolved in
  _fetcher w = Some FetcherObj /\
  assigned_partitions (_subscription w) <> ∅ /\
  has_all_fetch_positions (_subscription w) = true /\
  outcome (getone scripted 3 [] w) = OutOfFuel /\
  events (getone scripted 3 [] w) =
    [FetcherNextRecord []; LoopSleep (1 # 10);
     FetcherNextRecord []; LoopSleep (1 # 10);
     FetcherNextRecord []; LoopSleep (1 # 10)].
Proof.
  cbv zeta.
  assert (Hne : assigned_partitions
                  (_subscription (started_world quiet_cluster resolved)) <> ∅).
  { intros H. apply (f_equal (fun X => bool_decide (tp0 ∈ X))) in H.
    vm_compute in H. discriminate H. }
  split; [reflexivity|]. split; [exact Hne|]. split; [reflexivity|].
  exact (getone_never_times_out scripted []
           (started_world quiet_cluster resolved) FetcherObj
           (scripted_next_record []) (scripted_sleep _)
           eq_refl Hne eq_refl 3%nat).
Defined.

Lemma getmany_returns_buffered_witness :
  let w := started_world busy_cluster resolved in
  _fetcher w = Some FetcherObj /\
  has_all_fetch_positions (_subscription w) = true /\
  fetcher_fetched_records scripted [] (_subscription w) (env w)
    = (Ok {[ tp0 := [record0] ]}, _subscription w, busy_cluster) /\
  ({[ tp0 := [record0] ]} : gmap TopicPartition (list ConsumerRecord)) <> ∅ /\
  getmany scripted 1 [] 1000 w =
    (Returns {[ tp0 := [record0] ]},
     set_env busy_cluster (set_subscription (_subscription w) w),
     [FetcherFetchedRecords []]).
Proof.
  cbv zeta.
  assert (Hne : ({[ tp0 := [record0] ]}
                   : gmap TopicPartition (list ConsumerRecord)) <> ∅).
  { intros H. apply (f_equal (fun m => m !! tp0)) in H.
    vm_compute in H. discriminate H. }
  do 3 (split; [reflexivity|]). split; [exact Hne|].
  exact (getmany_returns_buffered scripted 0 [] 1000
           (started_world busy_cluster resolved) FetcherObj _ _ _
           eq_refl eq_refl eq_refl Hne).
Defined.

Lemma resolution_failure_propagates_witness :
  let w := groupless_world quiet_cluster unresolved in
  let x := CollaboratorError "NoOffsetForPartition" in
  let evs := [FetcherUpdateFetchPositions
                (PartitionSet (missing_fetch_positions (_subscription w)))] in
  has_all_fetch_positions (_subscription w) = false /\
  _update_fetch_positions unresolvable
    (PartitionSet (missing_fetch_positions (_subscription w))) w
    = (Raises x, w, evs) /\
  getmany unresolvable 5 [] 1000 w = (Raises x, w, evs).
Proof.
  cbv zeta. split; [reflexivity|]. split; [reflexivity|].
  exact (proj1 (resolution_failure_propagates unresolvable []
                  (groupless_world quiet_cluster unresolved) _ _ _
                  eq_refl eq_refl) 5%nat 1000).
Defined.

Lemma scripted_sleep_keeps_empty (d : Q) (s : SubscriptionState) (c : Cluster) :
  assigned_partitions s = ∅ ->
  exists s1 c1, loop_sleep scripted d s c = (Ok tt, s1, c1) /\
                assigned_partitions s1 = ∅.
Proof. intros H. exists s. eexists. split; [reflexivity | exact H]. Defined.

Lemma only_getone_waits_witness :
  let w := unassigned_world quiet_cluster in
  assigned_partitions (_subscription w) = ∅ /\
  _fetcher w = Some FetcherObj /\
  (exists rest, events (getmany scripted 1 [] 0 w)
                = FetcherFetchedRecords [] :: rest) /\
  events (getone scripted 2 [] w) = [LoopSleep (1 # 10); LoopSleep (1 # 10)].
Proof.
  cbv zeta. split; [reflexivity|]. split; [reflexivity|].
  destruct (only_getone_waits_for_assignment scripted []
              (unassigned_world quiet_cluster) FetcherObj eq_refl eq_refl)
    as (Hmany & _ & Hone).
  split; [exact (Hmany 0%nat 0)|].
  exact (proj2 (Hone (scripted_sleep_keeps_empty _) 1%nat)).
Defined.

Lemma seek_to_committed_checks_first_witness :
  let w := started_world quiet_cluster (committed_at 5) in
  tp1 ∈ [tp0; tp1] /\ assignment (_subscription w) !! tp1 = None /\
  seek_to_committed scripted [tp0; tp1] w =
    (Raises (AssertionError "Unassigned partition"), w, []).
Proof.
  cbv zeta.
  assert (Hin : tp1 ∈ [tp0; tp1])
    by (apply list_elem_of_further, list_elem_of_here).
  split; [exact Hin|]. split; [reflexivity|].
  exact (seek_to_committed_checks_first scripted [tp0; tp1] tp1
           (started_world quiet_cluster (committed_at 5)) Hin eq_refl).
Defined.

Lemma committed_offsets_require_group_witness :
  let w := groupless_world quiet_cluster (committed_at 5) in
  _group_id w = None /\
  committed scripted tp0 w =
    (Raises (AssertionError "Requires group_id"), w, []) /\
  seek_to_committed scripted [tp0] w =
    (Raises (AssertionError "Requires group_id"), w, []).
Proof.
  cbv zeta. split; [reflexivity|].
  destruct (committed_offsets_require_group scripted
              (groupless_world quiet_cluster (committed_at 5)) eq_refl)
    as (Hcommitted & Hseek & _).
  split; [exact (Hcommitted tp0)|].
  apply Hseek; [discriminate|].
  constructor; [eexists; reflexivity | constructor].
Defined.

Lemma seek_to_committed_cached_witness :
  let w := started_world quiet_cluster (committed_at 5) in
  _group_id w = Some "g" /\
  exists a1,
    seek_to_committed scripted [tp0] w =
      (Returns tt, set_subscription (with_assignment a1 (_subscription w)) w,
       []) /\
    a1 !! tp0 = Some (TopicPartitionState.mk (Some 5) (Some 5) None).
Proof.
  cbv zeta. split; [reflexivity|].
  destruct (seek_to_committed_cached scripted [tp0]
              (started_world quiet_cluster (committed_at 5)) "g" eq_refl)
    as (a1 & Hrun & Hlook).
  - discriminate.
  - intros p Hp. apply list_elem_of_singleton in Hp as ->.
    exists (committed_at 5), 5. split; reflexivity.
  - exists a1. split; [exact Hrun|].
    rewrite (Hlook tp0). reflexivity.
Defined.

Lemma seek_then_commit_witness :
  let w := started_world quiet_cluster unresolved in
  0 <= 7 /\ is_Some (assignment (_subscription w) !! tp0) /\
  _group_id w = Some "g" /\ _coordinator w = Some GroupCoordinatorObj /\
  exists offsets,
    events (commit scripted None (world_after (seek tp0 (PyInt 7) w)))
      = [CoordinatorCommitOffsets offsets] /\
    offsets !! tp0 = Some (mkOM 7 EmptyString).
Proof.
  cbv zeta.
  assert (H0 : 0 <= 7) by lia.
  assert (H1 : is_Some (assignment
                (_subscription (started_world quiet_cluster unresolved)) !! tp0))
    by (eexists; reflexivity).
  split; [exact H0|]. split; [exact H1|]. do 2 (split; [reflexivity|]).
  destruct (seek_then_commit scripted tp0 7
              (started_world quiet_cluster unresolved) "g" GroupCoordinatorObj
              H0 H1 eq_refl eq_refl) as (offsets & Hev & Hp & _).
  exists offsets. split; [exact Hev | exact Hp].
Defined.

Lemma assign_replaces_assignment_witness :
  let w := started_world quiet_cluster resolved in
  let w1 := world_after (assign scripted [tp1] w) in
  mode (_subscription w) = USER_ASSIGNED /\
  events (assign scripted [tp1] w) = [ClientSetTopics ["T"]] /\
  tp1 ∈ assigned_partitions (_subscription w1) /\
  (tp0 ∉ assigned_partitions (_subscription w1)) /\
  assign scripted [tp0] (unassigned_world quiet_cluster) =
    (Raises IllegalStateError, unassigned_world quiet_cluster, []).
Proof.
  cbv zeta. split; [reflexivity|].
  destruct (assign_replaces_assignment scripted [tp1]
              (started_world quiet_cluster resolved)) as [_ Hmanual].
  destruct (Hmanual (or_intror eq_refl)) as (Hev & _ & _ & Hassigned).
  split; [exact Hev|].
  split; [apply Hassigned, list_elem_of_here|].
  split.
  - intros Hin. apply Hassigned in Hin.
    apply list_elem_of_singleton in Hin. discriminate Hin.
  - exact (proj1 (assign_replaces_assignment scripted [tp0]
                    (unassigned_world quiet_cluster)) (or_introl eq_refl)).
Defined.

(* ===================================================================== *)
(** ** [seek_to_committed], the whole call                                *)
(* ===================================================================== *)

Section SeekToCommitted.

Context {E : Type} (K : Collaborators E).

Lemma seek_rejects_unassigned (p : TopicPartition) (k : Z) (w : World E) :
  0 <= k -> assignment (_subscription w) !! p = None ->
  seek p (PyInt k) w = (Raises (AssertionError "Unassigned partition"), w, []).
Proof.
  intros Hk Hnone. unfold seek. run.
  destruct (Z.leb_spec 0 k); [|lia]. cbn.
  rewrite bool_decide_eq_false_2; [reflexivity|].
  unfold assigned_partitions. rewrite elem_of_dom, Hnone.
  intros [? ?]. discriminate.
Qed.

Lemma for_each_single {A} (x : A) (body : A -> @M E unit) (w : World E) :
  for_each [x] body w = body x w.
Proof.
  cbn [for_each]. unfold mbind, M_bind, bind.
  destruct (body x w) as [[[[]|e|] w1] evs]; cbn; rewrite ?app_nil_r;
    reflexivity.
Qed.

Lemma for_each_app {A} (xs ys : list A) (body : A -> @M E unit) (w : World E) :
  for_each (xs ++ ys) body w =
  match for_each xs body w with
  | (Returns _, w1, evs1) =>
      match for_each ys body w1 with
      | (r, w2, evs2) => (r, w2, evs1 ++ evs2)
      end
  | (Raises e, w1, evs1) => (Raises e, w1, evs1)
  | (OutOfFuel, w1, evs1) => (OutOfFuel, w1, evs1)
  end.
Proof.
  revert w. induction xs as [|x xs IH]; intros w.
  - cbn. destruct (for_each ys body w) as [[r w2] evs2]. reflexivity.
  - cbn [for_each app]. unfold mbind, M_bind, bind.
    destruct (body x w) as [[[[]|e|] w1] evs1]; try reflexivity.
    rewrite IH.
    destruct (for_each xs body w1) as [[[[]|e|] w2] evs2]; try reflexivity.
    destruct (for_each ys body w2) as [[r w3] evs3].
    rewrite app_assoc. reflexivity.
Qed.

Lemma same_env (w : World E) : set_env (env w) w = w.
Proof. destruct w. reflexivity. Qed.

Lemma same_env_after (s : SubscriptionState) (w : World E) :
  set_env (env w) (set_subscription s w) = set_subscription s w.
Proof. destruct w. reflexivity. Qed.

Lemma same_subscription (w : World E) : set_subscription (_subscription w) w = w.
Proof. destruct w. reflexivity. Qed.

Lemma step_resolved (p : TopicPartition) (w : World E) (g : string)
    (st : PartitionState) :
  _group_id w = Some g ->
  assignment (_subscription w) !! p = Some st ->
  is_Some (TopicPartitionState.committed st) \/
  (_coordinator w <> None /\
   forall s e, exists e1,
     coordinator_refresh_committed_offsets K s e = (Ok tt, s, e1)) ->
  exists e1,
    seek_to_committed_step K p w =
      (Returns tt,
       set_env e1
         (set_subscription
            (with_assignment
               (<[p := resume_from_committed st]> (assignment (_subscription w)))
               (_subscription w)) w),
       refreshes_needed (assignment (_subscription w)) [p]).
Proof.
  intros Hg Hst Hres. unfold refreshes_needed. cbn [flat_map]. rewrite Hst.
  destruct (TopicPartitionState.committed st) as [k|] eqn:Hk.
  - exists (env w). rewrite (step_cached K p w g st k Hg Hst Hk).
    rewrite same_env_after. reflexivity.
  - destruct Hres as [[k Hk']|[Hco Hquiet]]; [discriminate|].
    destruct (_coordinator w) as [c|] eqn:Hc; [|congruence].
    destruct (Hquiet (_subscription w) (env w)) as [e1 Hcall].
    exists e1.
    unfold resume_from_committed. rewrite Hk.
    rewrite (insert_id _ _ _ Hst), same_assignment.
    unfold seek_to_committed_step, committed. run. rewrite Hg. cbn.
    rewrite (is_assigned_true _ _ _ Hst). rewrite Hst. cbn. rewrite Hk. cbn.
    rewrite Hc. cbn. rewrite Hcall. cbn. rewrite Hst. cbn. rewrite Hk.
    cbn. rewrite same_subscription. reflexivity.
Qed.

Lemma refreshes_needed_insert (a : gmap TopicPartition PartitionState)
    (x : TopicPartition) (st : PartitionState) (ps : list TopicPartition) :
  a !! x = Some st ->
  refreshes_needed (<[x := resume_from_committed st]> a) ps
  = refreshes_needed a ps.
Proof.
  intros Hst. unfold refreshes_needed.
  induction ps as [|p ps IH]; [reflexivity|]. cbn [flat_map]. rewrite IH.
  f_equal. destruct (decide (p = x)) as [->|Hne].
  - rewrite lookup_insert_eq, Hst, resume_keeps_committed. reflexivity.
  - rewrite lookup_insert_ne by congruence. reflexivity.
Qed.

Lemma loop_resolved (g : string) (ps : list TopicPartition) :
  forall w : World E,
    _group_id w = Some g ->
    (forall p, p ∈ ps -> is_Some (assignment (_subscription w) !! p)) ->
    (forall p st, p ∈ ps -> assignment (_subscription w) !! p = Some st ->
                  is_Some (TopicPartitionState.committed st)) \/
    (_coordinator w <> None /\
     forall s e, exists e1,
       coordinator_refresh_committed_offsets K s e = (Ok tt, s, e1)) ->
    exists a1 e1,
      for_each ps (seek_to_committed_step K) w =
        (Returns tt,
         set_env e1 (set_subscription (with_assignment a1 (_subscription w)) w),
         refreshes_needed (assignment (_subscription w)) ps) /\
      forall q,
        a1 !! q =
        (if decide (q ∈ ps) then resume_from_committed else id)
          <$> assignment (_subscription w) !! q.
Proof.
  induction ps as [|x xs IH]; intros w Hg Hassigned Hres.
  - exists (assignment (_subscription w)), (env w). split.
    + cbn. rewrite same_assignment, same_env. reflexivity.
    + intros q. destruct (decide (q ∈ [])) as [Hin|_]; [inversion Hin|].
      destruct (assignment (_subscription w) !! q); reflexivity.
  - destruct (Hassigned x (list_elem_of_here _ _)) as [st Hst].
    destruct (step_resolved x w g st Hg Hst) as [e1 Hstep].
    { destruct Hres as [Hcached|Hquiet]; [left|right; exact Hquiet].
      exact (Hcached x st (list_elem_of_here _ _) Hst). }
    set (w1 := set_env e1
                 (set_subscription
                    (with_assignment
                       (<[x := resume_from_committed st]>
                          (assignment (_subscription w)))
                       (_subscription w)) w)) in *.
    destruct (IH w1 Hg) as (a2 & e2 & Hloop & Hlook).
    { intros p Hp. cbn.
      destruct (decide (p = x)) as [->|Hne].
      - rewrite lookup_insert_eq. eauto.
      - rewrite lookup_insert_ne by congruence.
        apply Hassigned, list_elem_of_further, Hp. }
    { destruct Hres as [Hcached|Hquiet]; [left|right; exact Hquiet].
      intros p st' Hp. cbn.
      destruct (decide (p = x)) as [->|Hne].
      - rewrite lookup_insert_eq. intros [= <-].
        rewrite resume_keeps_committed.
        exact (Hcached x st (list_elem_of_here _ _) Hst).
      - rewrite lookup_insert_ne by congruence.
        apply Hcached, list_elem_of_further, Hp. }
    exists a2, e2. split.
    + cbn [for_each]. unfold mbind, M_bind, bind.
      rewrite Hstep, Hloop.
      change (assignment (_subscription w1))
        with (<[x := resume_from_committed st]> (assignment (_subscription w))).
      rewrite (refreshes_needed_insert _ x st xs Hst).
      unfold refreshes_needed. cbn [flat_map]. rewrite app_nil_r. reflexivity.
    + intros q. rewrite Hlook.
      change (assignment (_subscription w1))
        with (<[x := resume_from_committed st]> (assignment (_subscription w))).
      destruct (decide (q = x)) as [->|Hne].
      * rewrite lookup_insert_eq, Hst.
        rewrite (decide_True (P := x ∈ x :: xs)) by apply list_elem_of_here.
        destruct (decide (x ∈ xs)); cbn;
          [rewrite resume_idempotent|]; reflexivity.
      * rewrite lookup_insert_ne by congruence.
        destruct (decide (q ∈ xs)) as [Hin|Hin].
        -- rewrite decide_True by (apply list_elem_of_further; exact Hin).
           reflexivity.
        -- rewrite decide_False; [reflexivity|].
           intros Hin'. apply elem_of_cons in Hin' as [?|?]; contradiction.
Qed.

Lemma elements_assigned (w : World E) :
  Forall (fun p => is_Some (assignment (_subscription w) !! p))
         (elements (assigned_partitions (_subscription w))).
Proof.
  apply Forall_forall. intros p Hp. apply elem_of_elements in Hp.
  unfold assigned_partitions in Hp. apply elem_of_dom in Hp. exact Hp.
Qed.

(** C7. What a call of [seek_to_committed] does to the positions.
    With no argument and nothing assigned it fails its assertion; with no
    argument otherwise it is the call on all assigned partitions. On one
    assigned partition the call is decided by what [committed(tp)]
    returns: an offset [k > 0] is sought, so the position of [tp] becomes
    exactly [k]; [None], [0] or a negative offset leaves the world as
    [committed] left it; an exception is passed on. On a longer list the
    call processes the partitions in order, one after the other. End to
    end, when every committed offset is cached or the coordinator's refresh
    finds nothing new, the call returns, makes one refresh call per
    partition whose offset is not cached and no other call, moves exactly
    the passed partitions whose committed offset is positive, each to that
    offset, and leaves every other partition state as it was. *)
Theorem seek_to_committed_spec (w : World E) :
  (assigned_partitions (_subscription w) = ∅ ->
   seek_to_committed K [] w =
     (Raises (AssertionError "No partitions are currently assigned"), w, []))
  /\
  (assigned_partitions (_subscription w) <> ∅ ->
   seek_to_committed K [] w =
     seek_to_committed K (elements (assigned_partitions (_subscription w))) w)
  /\
  (forall tp r w1 evs,
     is_Some (assignment (_subscription w) !! tp) ->
     committed K tp w = (r, w1, evs) ->
     seek_to_committed K [tp] w =
       match r with
       | Returns (Some k) =>
           if 0 <? k
           then match assignment (_subscription w1) !! tp with
                | Some st =>
                    (Returns tt,
                     set_subscription
                       (with_assignment
                          (<[tp := TopicPartitionState.seek k st]>
                             (assignment (_subscription w1)))
                          (_subscription w1)) w1,
                     evs)
                | None =>
                    (Raises (AssertionError "Unassigned partition"), w1, evs)
                end
           else (Returns tt, w1, evs)
       | Returns None => (Returns tt, w1, evs)
       | Raises x => (Raises x, w1, evs)
       | OutOfFuel => (OutOfFuel, w1, evs)
       end)
  /\
  (forall ps1 ps2,
     ps1 <> [] -> ps2 <> [] ->
     Forall (fun p => is_Some (assignment (_subscription w) !! p)) (ps1 ++ ps2) ->
     match seek_to_committed K ps1 w with
     | (Returns _, w1, evs1) =>
         Forall (fun p => is_Some (assignment (_subscription w1) !! p)) ps2 ->
         seek_to_committed K (ps1 ++ ps2) w =
           match seek_to_committed K ps2 w1 with
           | (r, w2, evs2) => (r, w2, evs1 ++ evs2)
           end
     | (Raises x, w1, evs1) =>
         seek_to_committed K (ps1 ++ ps2) w = (Raises x, w1, evs1)
     | (OutOfFuel, w1, evs1) =>
         seek_to_committed K (ps1 ++ ps2) w = (OutOfFuel, w1, evs1)
     end)
  /\
  (forall ps g,
     _group_id w = Some g -> ps <> [] ->
     (forall p, p ∈ ps -> is_Some (assignment (_subscription w) !! p)) ->
     (forall p st, p ∈ ps -> assignment (_subscription w) !! p = Some st ->
                   is_Some (TopicPartitionState.committed st)) \/
     (_coordinator w <> None /\
      forall s e, exists e1,
        coordinator_refresh_committed_offsets K s e = (Ok tt, s, e1)) ->
     exists a1 e1,
       seek_to_committed K ps w =
         (Returns tt,
          set_env e1 (set_subscription (with_assignment a1 (_subscription w)) w),
          refreshes_needed (assignment (_subscription w)) ps) /\
       forall q,
         match assignment (_subscription w) !! q with
         | None => a1 !! q = None
         | Some st =>
             (forall k, q ∈ ps ->
                TopicPartitionState.committed st = Some k -> 0 < k ->
                a1 !! q = Some (TopicPartitionState.seek k st)) /\
             (q ∉ ps \/ TopicPartitionState.committed st = None \/
              (exists k, TopicPartitionState.committed st = Some k /\ k <= 0) ->
              a1 !! q = Some st)
         end).
Proof.
  split; [|split; [|split; [|split]]].
  - intros Hempty. unfold seek_to_committed. run.
    rewrite bool_decide_eq_true_2 by exact Hempty. reflexivity.
  - intros Hne.
    rewrite (seek_to_committed_loop K (elements _) w).
    + unfold seek_to_committed. run.
      rewrite bool_decide_eq_false_2 by exact Hne. cbn.
      destruct (for_each _ _ w) as [[r w2] evs2]. reflexivity.
    + intros Hnil. apply Hne. apply elements_empty_inv in Hnil.
      apply leibniz_equiv. exact Hnil.
    + apply elements_assigned.
  - intros tp r w1 evs Hassigned Hcommitted.
    rewrite (seek_to_committed_loop K [tp] w) by (discriminate || (constructor; [exact Hassigned|constructor])).
    rewrite for_each_single. unfold seek_to_committed_step, mbind, M_bind, bind.
    rewrite Hcommitted.
    destruct r as [[k|]|x|]; try reflexivity.
    + destruct (Z.ltb_spec 0 k) as [Hk|Hk].
      * destruct (assignment (_subscription w1) !! tp) as [st|] eqn:Hst.
        -- rewrite (seek_accepts tp k st w1) by (lia || exact Hst).
           rewrite app_nil_r. reflexivity.
        -- rewrite (seek_rejects_unassigned tp k w1) by (lia || exact Hst).
           rewrite app_nil_r. reflexivity.
      * cbn. rewrite app_nil_r. reflexivity.
    + cbn. rewrite app_nil_r. reflexivity.
  - intros ps1 ps2 Hne1 Hne2 Hall.
    pose proof Hall as Hall'. apply Forall_app in Hall' as [Hall1 Hall2].
    assert (Hne : ps1 ++ ps2 <> []).
    { destruct ps1; [congruence|discriminate]. }
    rewrite (seek_to_committed_loop K ps1 w Hne1 Hall1).
    rewrite (seek_to_committed_loop K (ps1 ++ ps2) w Hne Hall).
    rewrite for_each_app.
    destruct (for_each ps1 _ w) as [[[[]|x|] w1] evs1]; try reflexivity.
    intros Hall2'.
    rewrite (seek_to_committed_loop K ps2 w1 Hne2 Hall2'). reflexivity.
  - intros ps g Hg Hne Hassigned Hres.
    destruct (loop_resolved g ps w Hg Hassigned Hres) as (a1 & e1 & Hloop & Hlook).
    exists a1, e1. split.
    + rewrite (seek_to_committed_loop K ps w Hne); [exact Hloop|].
      apply Forall_forall. exact Hassigned.
    + intros q. rewrite (Hlook q).
      destruct (assignment (_subscription w) !! q) as [st|]; [|reflexivity].
      cbn. split.
      * intros k Hin Hk Hpos. rewrite decide_True by exact Hin.
        unfold resume_from_committed. rewrite Hk.
        destruct (Z.ltb_spec 0 k); [reflexivity|lia].
      * intros Hstay. destruct (decide (q ∈ ps)) as [Hin|Hin]; [|reflexivity].
        unfold resume_from_committed.
        destruct Hstay as [Hout|[Hnone|(k & Hk & Hle)]].
        -- contradiction.
        -- rewrite Hnone. reflexivity.
        -- rewrite Hk. destruct (Z.ltb_spec 0 k); [lia|reflexivity].
Qed.

End SeekToCommitted.

Lemma nothing_committed_refresh (s : SubscriptionState) (c : Cluster) :
  exists c1,
    coordinator_refresh_committed_offsets nothing_committed s c = (Ok tt, s, c1).
Proof. eexists. reflexivity. Defined.

Lemma seek_to_committed_witness :
  let w5 := started_world quiet_cluster (committed_at 5) in
  let w0 := started_world quiet_cluster (committed_at 0) in
  let wu := started_world quiet_cluster unresolved in
  let wn := unassigned_world quiet_cluster in
  (exists w1,
     seek_to_committed scripted [tp0] w5 = (Returns tt, w1, []) /\
     TopicPartitionState.position <$> assignment (_subscription w1) !! tp0
       = Some (Some 5)) /\
  (exists w1,
     seek_to_committed scripted [tp0] w0 = (Returns tt, w1, []) /\
     TopicPartitionState.position <$> assignment (_subscription w1) !! tp0
       = Some (Some 3)) /\
  (exists w1,
     seek_to_committed nothing_committed [tp0] wu =
       (Returns tt, w1, [CoordinatorRefreshCommittedOffsets]) /\
     TopicPartitionState.position <$> assignment (_subscription w1) !! tp0
       = Some None) /\
  seek_to_committed scripted [] wn =
    (Raises (AssertionError "No partitions are currently assigned"), wn, []).
Proof.
  cbv zeta.
  assert (Hin : forall (w : World Cluster) st,
            assignment (_subscription w) !! tp0 = Some st ->
            forall p, p ∈ [tp0] -> is_Some (assignment (_subscription w) !! p)).
  { intros w st Hst p Hp. apply list_elem_of_singleton in Hp as ->. eauto. }
  split; [|split; [|split]].
  - destruct (proj2 (proj2 (proj2 (proj2 (seek_to_committed_spec scripted
                (started_world quiet_cluster (committed_at 5))))))
                [tp0] "g" eq_refl ltac:(discriminate)
                (Hin (started_world quiet_cluster (committed_at 5))
                     (committed_at 5) eq_refl))
      as (a1 & c1 & Hrun & Hlook).
    + left. intros p st Hp. apply list_elem_of_singleton in Hp as ->.
      intros [= <-]. eexists. reflexivity.
    + eexists. split; [exact Hrun|].
      specialize (Hlook tp0). cbn in Hlook. destruct Hlook as [Hmoved _].
      cbn. rewrite (Hmoved 5 (list_elem_of_here _ _) eq_refl ltac:(lia)).
      reflexivity.
  - destruct (proj2 (proj2 (proj2 (proj2 (seek_to_committed_spec scripted
                (started_world quiet_cluster (committed_at 0))))))
                [tp0] "g" eq_refl ltac:(discriminate)
                (Hin (started_world quiet_cluster (committed_at 0))
                     (committed_at 0) eq_refl))
      as (a1 & c1 & Hrun & Hlook).
    + left. intros p st Hp. apply list_elem_of_singleton in Hp as ->.
      intros [= <-]. eexists. reflexivity.
    + eexists. split; [exact Hrun|].
      specialize (Hlook tp0). cbn in Hlook. destruct Hlook as [_ Hstay].
      cbn. rewrite Hstay; [reflexivity|].
      right. right. exists 0. split; [reflexivity|lia].
  - destruct (proj2 (proj2 (proj2 (proj2 (seek_to_committed_spec nothing_committed
                (started_world quiet_cluster unresolved)))))
                [tp0] "g" eq_refl ltac:(discriminate)
                (Hin (started_world quiet_cluster unresolved)
                     unresolved eq_refl))
      as (a1 & c1 & Hrun & Hlook).
    + right. split; [discriminate|]. exact nothing_committed_refresh.
    + eexists. split; [exact Hrun|].
      specialize (Hlook tp0). cbn in Hlook. destruct Hlook as [_ Hstay].
      cbn. rewrite Hstay; [reflexivity|].
      right. left. reflexivity.
  - apply (proj1 (seek_to_committed_spec scripted
                    (unassigned_world quiet_cluster))).
    reflexivity.
Defined.
